(** * Shallow embedding of [azkaban/project.py]

    The [Project] class of the azkaban command line client: the job and
    file registry ([add_job], [add_file], [merge_into]), the archive
    builder ([build]), credential resolution ([_get_credentials]), the two
    remote calls ([upload], [run]) and the command line driver ([main]).

    Python side effects are threaded through a state and exception monad
    [M]: a computation maps a [world] to a new world and either a value or
    a raised exception.  As in Python, the state changes made before an
    exception is raised are kept. *)

From Stdlib Require Import ZArith Ascii String.
From stdpp Require Import base gmap list strings.

(** ** Python values and exceptions *)

(** The exceptions that can leave the modelled code.  [ConnectionError],
    [MissingSchema] and [RequestError] are the exceptions of [requests];
    like [IOError] they are all subclasses of Python 2's [IOError]. *)
Inductive exn :=
| AzkabanError (msg : string)
| ValueError (msg : string)
| KeyError (key : string)
| ConnectionError
| MissingSchema
| RequestError
| IOError (msg : string)
| OSError (msg : string)
| IndexError (msg : string)
| NameError (msg : string)
| SystemExit (code : Z).

Definition is_ioerror (e : exn) : bool :=
  match e with
  | ConnectionError | MissingSchema | RequestError | IOError _ => true
  | _ => false
  end.

Inductive result (A : Type) :=
| Ok (a : A)
| Err (e : exn).
Arguments Ok {A} a.
Arguments Err {A} e.

(** Python truthiness of an optional string ([None] and [''] are false). *)
Definition truthy (s : option string) : bool :=
  match s with
  | Some v => negb (bool_decide (v = ""))
  | None => false
  end.

(** [x or y] on optional strings. *)
Definition py_or (x : option string) (y : string) : string :=
  match x with
  | Some v => if truthy x then v else y
  | None => y
  end.

(** [c in s]. *)
Fixpoint has_char (c : Ascii.ascii) (s : string) : bool :=
  match s with
  | EmptyString => false
  | String d s' => Ascii.eqb c d || has_char c s'
  end.

(** A hexadecimal digit, lower case. *)
Definition hex_digit (n : nat) : Ascii.ascii :=
  Ascii.ascii_of_nat (if Nat.ltb n 10 then 48 + n else 87 + n).

(** The characters of [%r] of a byte string quoted by [q] (CPython 2's
    [PyString_Repr]): the quote and the backslash are escaped, tab, newline
    and carriage return are written [\t], [\n], [\r], the other bytes
    outside [' '..'~'] are written [\xNN]. *)
Fixpoint repr_body (q : Ascii.ascii) (s : string) : string :=
  match s with
  | EmptyString => EmptyString
  | String c s' =>
      let n := Ascii.nat_of_ascii c in
      (if Ascii.eqb c q || Ascii.eqb c "\"%char then String "\" (String c EmptyString)
       else if Ascii.eqb c "009"%char then String "\" (String "t" EmptyString)
       else if Ascii.eqb c "010"%char then String "\" (String "n" EmptyString)
       else if Ascii.eqb c "013"%char then String "\" (String "r" EmptyString)
       else if Nat.ltb n 32 || Nat.leb 127 n then
         String "\" (String "x" (String (hex_digit (n / 16))
                                   (String (hex_digit (n mod 16)) EmptyString)))
       else String c EmptyString) +:+ repr_body q s'
  end.

(** [%r] of a byte string: single quotes, unless the string holds a single
    quote and no double quote. *)
Definition repr (s : string) : string :=
  let q := if has_char "'" s && negb (has_char "034" s) then "034"%char else "'"%char in
  String q (repr_body q s +:+ String q EmptyString).

(** [os.path.isabs] on POSIX. *)
Definition isabs (path : string) : bool := String.prefix "/" path.

(** A run of [k] slashes. *)
Fixpoint slashes (k : nat) : string :=
  match k with
  | O => ""
  | S k' => String "/"%char (slashes k')
  end.

(** [s.rstrip('/')]. *)
Fixpoint lstrip_slash (s : string) : string :=
  match s with
  | String "/"%char s' => lstrip_slash s'
  | _ => s
  end.

Fixpoint rev_string (s : string) : string :=
  match s with
  | EmptyString => EmptyString
  | String c s' => rev_string s' +:+ String c EmptyString
  end.

Definition rstrip_slash (s : string) : string :=
  rev_string (lstrip_slash (rev_string s)).

(** ** Data model *)

(** Modelled from the spec: [azkaban.job.Job] (not part of this file set):
    a mapping of option key to value, serialized by [Job.build] to a flat
    [key=value] text format. *)
Record job := Job { job_options : list (string * string) }.

Definition job_build (j : job) : string :=
  foldr (fun '(k, v) acc => k +:+ "=" +:+ v +:+ String "010"%char acc)
    "" (job_options j).

(** A [Project] object: its name, the [_jobs] dict and the [_files] dict
    (file path to archive path, [None] when [add_file] got no archive
    path).  Dict iteration ([.items()]) is [map_to_list]: a fixed but
    unspecified order, as for Python 2 dicts. *)
Record project := Project {
  name : string;
  _jobs : gmap string job;
  _files : gmap string (option string)
}.

Definition set_jobs (js : gmap string job) (p : project) : project :=
  Project (name p) js (_files p).
Definition set_files (fs : gmap string (option string)) (p : project)
  : project := Project (name p) (_jobs p) fs.

(** Where an archive entry's bytes come from: the text written by
    [job.build] to a temporary file, or a file on disk. *)
Inductive zsrc :=
| JobText (text : string)
| FromDisk (path : string).

(** What a path on disk holds. *)
Inductive fnode :=
| RegularFile
| ZipArchive (entries : list (string * zsrc)).

(** The parsed [~/.azkabanrc]: section name to option name to value. *)
Abbreviation config := (gmap string (gmap string string)).

(** An HTTP POST: URL, form fields in source order, attached file. *)
Record request := Request {
  rq_url : string;
  rq_data : list (string * string);
  rq_file : option string
}.

(** A decoded JSON object (values rendered as strings). *)
Abbreviation jobj := (gmap string string).

(** What [requests.post] does for a request: raise, or answer with a body
    text and, when the body is valid JSON, its decoding. *)
Inductive reply :=
| RRaise (e : exn)
| RAnswer (text : string) (json : option jobj).

(** Observable events, in order. *)
Inductive event :=
| Posted (rq : request)
| Prompted (msg : string)
| LogInfo (msg : string)
| LogError (msg : string)
| Printed (options : list (string * string)).

(** Project objects live in a store indexed by object identity, so that
    [merge_into] may be called with the same object on both sides. *)
Abbreviation loc := nat.

(** [w_fs] is the disk apart from [~/.azkabanrc], whose parsed content is
    [w_rc]; [w_trace] records the requests, prompts, logger calls (whatever
    the logger's level) and printed output. *)
Record world := World {
  w_fs : gmap string fnode;
  w_store : loc -> project;
  w_rc : config;
  w_trace : list event
}.

Definition upd_store (l : loc) (p : project) (s : loc -> project)
  : loc -> project :=
  fun l' => if Nat.eqb l' l then p else s l'.

(** ** The state and exception monad *)

Definition M (A : Type) : Type := world -> world * result A.

Global Instance M_ret : MRet M := fun A a w => (w, Ok a).
Global Instance M_bind : MBind M := fun A B k m w =>
  match m w with
  | (w', Ok a) => k a w'
  | (w', Err e) => (w', Err e)
  end.

Definition raise {A} (e : exn) : M A := fun w => (w, Err e).

(** [try m except e: h(e)]. *)
Definition catch {A} (m : M A) (h : exn -> M A) : M A := fun w =>
  match m w with
  | (w', Err e) => h e w'
  | r => r
  end.

Definition get_fs : M (gmap string fnode) := fun w => (w, Ok (w_fs w)).
Definition get_rc : M config := fun w => (w, Ok (w_rc w)).

Definition set_fs (fs : gmap string fnode) : M unit := fun w =>
  (World fs (w_store w) (w_rc w) (w_trace w), Ok tt).
Definition set_rc (c : config) : M unit := fun w =>
  (World (w_fs w) (w_store w) c (w_trace w), Ok tt).
Definition emit (ev : event) : M unit := fun w =>
  (World (w_fs w) (w_store w) (w_rc w) (w_trace w ++ [ev]), Ok tt).

Definition get_project (l : loc) : M project := fun w =>
  (w, Ok (w_store w l)).
Definition put_project (l : loc) (p : project) : M unit := fun w =>
  (World (w_fs w) (upd_store l p (w_store w)) (w_rc w) (w_trace w), Ok tt).

(** [os.path.exists]. *)
Definition exists_path (fs : gmap string fnode) (path : string) : bool :=
  bool_decide (is_Some (fs !! path)).

(** [for x in xs: f(x)]. *)
Fixpoint for_each {A} (xs : list A) (f : A -> M unit) : M unit :=
  match xs with
  | [] => mret tt
  | x :: xs' => f x ;; for_each xs' f
  end.

(** ** The [Project] methods

    The hooks [Job.on_add] and [Job.on_build] belong to [azkaban.job],
    which is not part of this file set; they are section variables.  A
    hook is called with the project object and the job name; it may read
    the disk, change that project, and raise. *)

Abbreviation hook :=
  (gmap string fnode -> job -> project -> string -> project * result unit).

Section Azkaban.

Variable on_add : hook.
Variable on_build : hook.

(** [job.on_add(self, name)] / [job.on_build(self, name)]. *)
Definition call_hook (h : hook) (self : loc) (j : job) (n : string)
  : M unit := fun w =>
  let '(p', r) := h (w_fs w) j (w_store w self) n in
  (World (w_fs w) (upd_store self p' (w_store w)) (w_rc w) (w_trace w), r).

(** [Project.add_file(path, archive_path=None)]. *)
Definition add_file (self : loc) (path : string) (archive_path : option string)
  : M unit :=
  p ← get_project self;
  if negb (isabs path) then
    raise (AzkabanError ("relative path not allowed " +:+ repr path))
  else
    match _files p !! path with
    | Some ap =>
        if bool_decide (ap = archive_path) then mret tt
        else raise (AzkabanError ("inconsistent duplicate " +:+ repr path))
    | None =>
        fs ← get_fs;
        if negb (exists_path fs path) then
          raise (AzkabanError ("missing file " +:+ repr path))
        else put_project self (set_files (<[path := archive_path]> (_files p)) p)
    end.

(** [Project.add_job(name, job)]. *)
Definition add_job (self : loc) (n : string) (j : job) : M unit :=
  p ← get_project self;
  match _jobs p !! n with
  | Some _ => raise (AzkabanError ("duplicate job name " +:+ repr n))
  | None =>
      put_project self (set_jobs (<[n := j]> (_jobs p)) p) ;;
      call_hook on_add self j n
  end.

(** [Project.merge_into(project)]: [self._files.items()] is evaluated
    after the job loop. *)
Definition merge_into (self project : loc) : M unit :=
  p ← get_project self;
  for_each (map_to_list (_jobs p)) (fun '(n, j) => add_job project n j) ;;
  p' ← get_project self;
  for_each (map_to_list (_files p')) (fun '(path, ap) => add_file project path ap).

(** [ZipFile(path, 'w')]: creates (or truncates) the archive. *)
Definition zip_open (path : string) : M unit :=
  fs ← get_fs; set_fs (<[path := ZipArchive []]> fs).

(** [path.split('/')]. *)
Fixpoint split_slash (s : string) : list string :=
  match s with
  | EmptyString => [""]
  | String c s' =>
      if Ascii.eqb c "/" then "" :: split_slash s'
      else match split_slash s' with
           | [] => [String c ""]
           | x :: xs => String c x :: xs
           end
  end.

(** One turn of the component loop of [posixpath.normpath]. *)
Definition normpath_step (initial_slashes : nat) (new_comps : list string)
    (comp : string) : list string :=
  if bool_decide (comp = "") || bool_decide (comp = ".") then new_comps
  else if negb (bool_decide (comp = ".."))
          || (Nat.eqb initial_slashes 0 && bool_decide (new_comps = []))
          || bool_decide (last new_comps = Some "..")
  then new_comps ++ [comp]
  else if bool_decide (new_comps = []) then new_comps
  else removelast new_comps.

(** [posixpath.normpath(path)] (Python 2.7). *)
Definition normpath (path : string) : string :=
  if bool_decide (path = "") then "."
  else
    let initial_slashes :=
      if String.prefix "/" path then
        if String.prefix "//" path && negb (String.prefix "///" path) then 2 else 1
      else 0 in
    let comps := fold_left (normpath_step initial_slashes) (split_slash path) [] in
    let path' := slashes initial_slashes +:+ String.concat "/" comps in
    if bool_decide (path' = "") then "." else path'.

(** [filename[0:filename.find(chr(0))]] in the [ZipInfo] constructor. *)
Fixpoint cut_nul (s : string) : string :=
  match s with
  | EmptyString => EmptyString
  | String c s' => if Ascii.eqb c "000"%char then EmptyString else String c (cut_nul s')
  end.

(** The entry name [ZipFile.write] stores for [arcname]:
    [os.path.normpath(os.path.splitdrive(arcname)[1])], then the leading
    slashes removed by [while arcname[0] in (os.sep, os.altsep)], then cut
    at the first NUL by [ZipInfo]. *)
Definition zip_name (arcname : string) : string :=
  cut_nul (lstrip_slash (normpath arcname)).

(** [false] when that loop runs out of characters and [arcname[0]] raises
    [IndexError] ([normpath] gave only slashes). *)
Definition zip_name_ok (arcname : string) : bool :=
  negb (bool_decide (lstrip_slash (normpath arcname) = "")).

(** [writer.write(fpath, arcname)] once [fpath] is known to exist: appends
    one entry to the archive. *)
Definition zip_write (path : string) (arcname : string) (src : zsrc)
  : M unit :=
  if negb (zip_name_ok arcname) then raise (IndexError "string index out of range")
  else
    fs ← get_fs;
    let es := match fs !! path with Some (ZipArchive es) => es | _ => [] end in
    set_fs (<[path := ZipArchive (es ++ [(zip_name arcname, src)])]> fs).

(** [writer.write(fpath, apath)]: [os.stat(fpath)] comes first ([OSError]
    when it is missing); [fpath] is the entry name when [apath] is [None]. *)
Definition zip_write_file (path fpath : string) (arcname : option string)
  : M unit :=
  fs ← get_fs;
  if exists_path fs fpath then zip_write path (default fpath arcname) (FromDisk fpath)
  else raise (OSError ("No such file or directory: " +:+ repr fpath)).

(** [human_readable(getsize(path))] of the written archive: the size of a
    zip file depends on its compression, which is not modelled. *)
Variable archive_size : list (string * zsrc) -> string.

(** [Project.build(path, overwrite=False)].  Each job's text is what
    [job.build] writes to the temporary file that is then archived. *)
Definition build (self : loc) (path : string) (overwrite : bool) : M unit :=
  fs ← get_fs;
  if exists_path fs path && negb overwrite then
    raise (AzkabanError ("path " +:+ repr path +:+ " already exists"))
  else
    p ← get_project self;
    if bool_decide (_jobs p = ∅) && bool_decide (_files p = ∅) then
      raise (AzkabanError "building empty project")
    else
      zip_open path ;;
      for_each (map_to_list (_jobs p)) (fun '(n, j) =>
        call_hook on_build self j n ;;
        zip_write path (n +:+ ".job") (JobText (job_build j))) ;;
      p' ← get_project self;
      for_each (map_to_list (_files p')) (fun '(fpath, apath) =>
        zip_write_file path fpath apath) ;;
      fs' ← get_fs;
      let es := match fs' !! path with Some (ZipArchive es) => es | _ => [] end in
      emit (LogInfo ("project successfully built (size: " +:+ archive_size es +:+ ")")).

(** ** Remote calls

    The server, [getpass.getuser()] and what the user types at the
    [getpass] prompt are section variables. *)

Variable server : request -> reply.
Variable getuser_name : string.
Variable typed_password : string.

(** [requests.post(url, data, files=...)]. *)
Definition post (rq : request) : M (string * option jobj) :=
  emit (Posted rq) ;;
  match server rq with
  | RRaise e => raise e
  | RAnswer text json => mret (text, json)
  end.

(** [req.json()]. *)
Definition req_json (r : string * option jobj) : M jobj :=
  match r.2 with
  | Some o => mret o
  | None => raise (ValueError "No JSON object could be decoded")
  end.

(** [res[key]]. *)
Definition getitem (o : jobj) (key : string) : M string :=
  match o !! key with
  | Some v => mret v
  | None => raise (KeyError key)
  end.

(** [RawConfigParser({'user': '', 'session_id': ''})]. *)
Definition rc_defaults : gmap string string :=
  <["user" := ""]> (<["session_id" := ""]> ∅).

Definition has_section (c : config) (s : string) : bool :=
  bool_decide (is_Some (c !! s)).

Definition has_option (c : config) (s o : string) : bool :=
  match c !! s with
  | Some sec => bool_decide (is_Some (sec !! o)) || bool_decide (is_Some (rc_defaults !! o))
  | None => false
  end.

(** [parser.get(s, o)], only called on options that [has_option] finds
    (or that have a default). *)
Definition cfg_get (c : config) (s o : string) : string :=
  match c !! s ≫= lookup o with
  | Some v => v
  | None => default "" (rc_defaults !! o)
  end.

(** [parser.set(s, o, v)]. *)
Definition cfg_set (c : config) (s o v : string) : config :=
  <[s := <[o := v]> (default ∅ (c !! s))]> c.

(** The [except ConnectionError] / [except MissingSchema] clauses around
    the login, upload and run requests. *)
Definition wrap_request_error {A} (e : exn) : M A :=
  match e with
  | ConnectionError => raise (AzkabanError "unable to connect to azkaban server")
  | MissingSchema => raise (AzkabanError "invalid azkaban server url")
  | e => raise e
  end.

(** First half of [Project._get_credentials]: URL, user, cached session id
    and the parser read from [~/.azkabanrc] (empty when no alias). *)
Definition resolve_alias (url user : option string) (alias : option string)
  : M (string * option string * option string * config) :=
  if truthy alias then
    let a := default "" alias in
    cfg ← get_rc;
    if negb (has_section cfg a) then
      raise (AzkabanError ("missing alias " +:+ repr a))
    else if negb (has_option cfg a "url") then
      raise (AzkabanError ("missing url for alias " +:+ repr a))
    else
      mret (cfg_get cfg a "url", Some (cfg_get cfg a "user"),
            Some (cfg_get cfg a "session_id"), cfg)
  else if truthy url then mret (default "" url, user, None, ∅)
  else raise (ValueError "Either url or alias must be specified.").

(** The probe: [not session_id or post(url/manager, {session.id}).text]. *)
Definition needs_login (url : string) (session_id : option string) : M bool :=
  if negb (truthy session_id) then mret true
  else
    '(text, _) ← post (Request (url +:+ "/manager")
                         [("session.id", default "" session_id)] None);
    mret (negb (bool_decide (text = ""))).

(** [Project._get_credentials(url, user, password, alias)]. *)
Definition _get_credentials (url user password alias : option string)
  : M (string * string) :=
  '(url0, user0, session_id, cfg) ← resolve_alias url user alias;
  let url1 := rstrip_slash url0 in
  need ← needs_login url1 session_id;
  if (need : bool) then
    let user1 := py_or user0 getuser_name in
    password1 ← (if truthy password then mret (default "" password)
                 else emit (Prompted ("azkaban password for " +:+ user1 +:+ ": ")) ;;
                      mret typed_password);
    r ← catch (post (Request url1 [("action", "login"); ("username", user1);
                                   ("password", password1)] None))
              wrap_request_error;
    res ← req_json r;
    match res !! "error" with
    | Some m => raise (AzkabanError m)
    | None =>
        sid ← getitem res "session.id";
        (if truthy alias then set_rc (cfg_set cfg (default "" alias) "session_id" sid)
         else mret tt) ;;
        mret (url1, sid)
    end
  else mret (url1, default "" session_id).

(** [Project.upload(archive, url, user, password, alias)].  The archive
    is opened while the arguments of [post] are evaluated, inside the
    [try]; [except IOError] also catches the other [requests] errors. *)
Definition upload (self : loc) (archive : string)
    (url user password alias : option string) : M jobj :=
  '(url1, session_id) ← _get_credentials url user password alias;
  p ← get_project self;
  r ← catch
        (fs ← get_fs;
         if negb (exists_path fs archive) then
           raise (IOError ("No such file or directory: " +:+ repr archive))
         else
           post (Request (url1 +:+ "/manager")
                   [("ajax", "upload"); ("session.id", session_id);
                    ("project", name p)] (Some archive)))
        (fun e => match e with
                  | ConnectionError | MissingSchema => wrap_request_error e
                  | e => if is_ioerror e then
                           raise (AzkabanError ("unable to find archive at " +:+ repr archive))
                         else raise e
                  end);
  res ← req_json r;
  match res !! "error" with
  | Some m => raise (AzkabanError m)
  | None =>
      pid ← getitem res "projectId";
      v ← getitem res "version";
      emit (LogInfo ("project successfully uploaded (id: " +:+ pid +:+
                     ", version: " +:+ v +:+ ")")) ;;
      mret res
  end.

(** [Project.run(flow, url, user, password, alias)]. *)
Definition run (self : loc) (flow : string)
    (url user password alias : option string) : M jobj :=
  '(url1, session_id) ← _get_credentials url user password alias;
  p ← get_project self;
  r ← catch (post (Request (url1 +:+ "/executor")
                     [("ajax", "executeFlow"); ("session.id", session_id);
                      ("project", name p); ("flow", flow)] None))
            wrap_request_error;
  res ← req_json r;
  match res !! "error" with
  | Some m => raise (AzkabanError m)
  | None =>
      x ← getitem res "execid";
      emit (LogInfo ("successfully started flow " +:+ flow +:+
                     " (execution id: " +:+ x +:+ ")")) ;;
      x' ← getitem res "execid";
      emit (LogInfo ("details at " +:+ url1 +:+ "/executor?execid=" +:+ x')) ;;
      mret res
  end.

(** ** The command line driver *)

(** Modelled from the spec: [azkaban.util.temppath] (not part of this file
    set) yields a path [temp_name] where no file exists yet and removes
    whatever is there when the block exits, also on an exception. *)
Variable temp_name : string.

(** [try: m finally: c]. *)
Definition finally {A} (m : M A) (c : M unit) : M A := fun w =>
  let '(w', r) := m w in
  match c w' with
  | (w'', Ok _) => (w'', r)
  | (w'', Err e) => (w'', Err e)
  end.

Definition with_temppath {A} (k : string -> M A) : M A :=
  fs ← get_fs;
  set_fs (delete temp_name fs) ;;
  finally (k temp_name) (fs' ← get_fs; set_fs (delete temp_name fs')).

(** The commands of the docopt grammar that [main] dispatches on ([--zip],
    [URL], [--user], [--alias] are [None] when absent).  The [list]
    command, which only writes listings to stdout, is not modelled. *)
Inductive command :=
| CmdBuild (path : string) (overwrite : bool)
| CmdUpload (zip url user alias : option string)
| CmdRun (flow : string) (url user alias : option string)
| CmdView (job_name : string).

(** The body of the [try] in [Project.main]. *)
Definition main_body (self : loc) (cmd : command) : M unit :=
  match cmd with
  | CmdBuild path overwrite => build self path overwrite
  | CmdUpload zip url user alias =>
      if truthy zip then upload self (default "" zip) url user None alias ;; mret tt
      else with_temppath (fun path =>
             build self path false ;; upload self path url user None alias ;; mret tt)
  | CmdRun flow url user alias => run self flow url user None alias ;; mret tt
  | CmdView job_name =>
      p ← get_project self;
      match _jobs p !! job_name with
      | Some j => emit (Printed (job_options j))
      | None => raise (AzkabanError ("missing job " +:+ repr job_name))
      end
  end.

(** [Project.main()], [quiet] being [args['--quiet']]: without it,
    [logger.addHandler(get_formatted_stream_handler())] raises [NameError]
    before the [try], as that name is neither defined nor imported in the
    module; then [except AzkabanError as err: logger.error(err); exit(1)]. *)
Definition main (self : loc) (quiet : bool) (cmd : command) : M unit :=
  (if quiet then mret tt
   else raise (NameError "global name 'get_formatted_stream_handler' is not defined")) ;;
  catch (main_body self cmd)
    (fun e => match e with
              | AzkabanError m => emit (LogError m) ;; raise (SystemExit 1)
              | e => raise e
              end).

End Azkaban.

(** ** Concrete worlds *)

Definition empty_project (n : string) : project := Project n ∅ ∅.

Definition world0 (fs : gmap string fnode) (p0 : project) : world :=
  World fs (fun l => if Nat.eqb l 0 then p0 else empty_project "other") ∅ [].

Definition hook_noop : hook := fun _ _ p _ => (p, Ok tt).

(** ** Vocabulary of the proofs *)

(** What a hook may do: it keeps the jobs and files it is given and fails
    only with the domain error. *)
Definition hook_grows (h : hook) : Prop :=
  forall fs j p n p' r, h fs j p n = (p', r) ->
    _jobs p ⊆ _jobs p' /\ _files p ⊆ _files p' /\
    (r = Ok tt \/ exists m, r = Err (AzkabanError m)).

(** The [add_job] and [add_file] calls that [merge_into] performs, in
    order. *)
Inductive merge_step :=
| MJob (n : string) (j : job)
| MFile (path : string) (ap : option string).

Definition merge_steps (p : project) : list merge_step :=
  map (fun '(n, j) => MJob n j) (map_to_list (_jobs p)) ++
  map (fun '(f, a) => MFile f a) (map_to_list (_files p)).

Definition do_step (on_add : hook) (tgt : loc) (s : merge_step) : M unit :=
  match s with
  | MJob n j => add_job on_add tgt n j
  | MFile f a => add_file tgt f a
  end.

(** The effect of a merge step on the target project is present. *)
Definition step_done (tgt : loc) (s : merge_step) (w : world) : Prop :=
  match s with
  | MJob n j => _jobs (w_store w tgt) !! n = Some j
  | MFile f a => _files (w_store w tgt) !! f = Some a
  end.

(** Only the target project may change. *)
Definition frame (tgt : loc) (w w' : world) : Prop :=
  (forall l, l <> tgt -> w_store w' l = w_store w l) /\
  w_fs w' = w_fs w /\ w_rc w' = w_rc w /\ w_trace w' = w_trace w.

(** ... and it only gains entries. *)
Definition grows (tgt : loc) (w w' : world) : Prop :=
  frame tgt w w' /\
  _jobs (w_store w tgt) ⊆ _jobs (w_store w' tgt) /\
  _files (w_store w tgt) ⊆ _files (w_store w' tgt).

(** A hook that succeeds and leaves the registered files alone. *)
Definition hook_keeps_files (h : hook) : Prop :=
  forall fs j p n, exists p', h fs j p n = (p', Ok tt) /\ _files p' = _files p.

(** The zip entries [build] writes for the jobs and for the files. *)
Definition job_entries (js : list (string * job)) : list (string * zsrc) :=
  map (fun '(n, j) => (zip_name (n +:+ ".job"), JobText (job_build j))) js.

Definition file_entries (fl : list (string * option string))
  : list (string * zsrc) :=
  map (fun '(f, a) => (zip_name (default f a), FromDisk f)) fl.


(** [m] only moves the world along [R]. *)
Definition preserves (R : world -> world -> Prop) {A} (m : M A) : Prop :=
  forall w w' r, m w = (w', r) -> R w w'.

(** Only the trace changes. *)
Definition trace_only (w w' : world) : Prop :=
  w_fs w' = w_fs w /\ w_store w' = w_store w /\ w_rc w' = w_rc w.
(** The disk and the projects are left alone. *)
Definition io_only (w w' : world) : Prop :=
  w_fs w' = w_fs w /\ w_store w' = w_store w.


(** Requests in a trace. *)
Definition is_posted (ev : event) : bool :=
  match ev with Posted _ => true | _ => false end.


(** ** Concrete inputs *)

Definition fs_a : gmap string fnode := {[ "/a.txt" := RegularFile ]}.
Definition w_a : world := world0 fs_a (empty_project "p").
Definition job0 : job := Job [("type", "command"); ("command", "echo hi")].
Definition p_src : project := Project "p" {[ "j" := job0 ]} {[ "/a.txt" := None ]}.
Definition w_src : world := world0 (<[ "/a.zip" := RegularFile ]> fs_a) p_src.
Definition srv0 (rq : request) : reply :=
  if bool_decide (rq_url rq = "http://h") then
    RAnswer "" (Some {[ "session.id" := "s1" ]})
  else if bool_decide (rq_url rq = "http://h/executor") then
    RAnswer "" (Some {[ "execid" := "7" ]})
  else RAnswer "" (Some ∅).
Definition rc0 : config := {[ "prod" := {[ "url" := "http://h/" ]} ]}.
(** A stand-in for [human_readable(getsize(path))]. *)
Definition size0 (es : list (string * zsrc)) : string := "1.0 KB".
Definition w_rc0 : world := World ∅ (w_store w_a) rc0 [].


(** ** Further vocabulary *)

(** Every value that [m] returns satisfies [P]. *)
Definition returns {A} (P : A -> Prop) (m : M A) : Prop :=
  forall w w' a, m w = (w', Ok a) -> P a.

(** Password prompts in a trace. *)
Definition is_prompt (ev : event) : bool :=
  match ev with Prompted _ => true | _ => false end.

(** The trace only gains events satisfying [P]. *)
Definition trace_grows (P : event -> Prop) (w w' : world) : Prop :=
  exists evs, w_trace w' = w_trace w ++ evs /\ Forall P evs.

(** The message of the closing [logger.info] of [build]. *)
Definition built_log (ev : event) : Prop :=
  exists size, ev = LogInfo ("project successfully built (size: " +:+ size +:+ ")").

(** The disk is unchanged outside [q], the configuration is unchanged, and
    the trace only gains [build]'s closing log message. *)
Definition disk_only_at (q : string) (w w' : world) : Prop :=
  (forall q', q' <> q -> w_fs w' !! q' = w_fs w !! q') /\
  w_rc w' = w_rc w /\ trace_grows built_log w w'.

(** The disk is unchanged outside [q]. *)
Definition fs_keep (q : string) (w w' : world) : Prop :=
  forall q', q' <> q -> w_fs w' !! q' = w_fs w !! q'.

(** A server that answers the login at [http://h] and refuses every other
    connection. *)
Definition srv_down (rq : request) : reply :=
  if bool_decide (rq_url rq = "http://h") then
    RAnswer "" (Some {[ "session.id" := "s1" ]})
  else RRaise ConnectionError.

(** * Properties *)

Lemma str_app_cons c s t : String c s +:+ t = String c (s +:+ t).
Proof. reflexivity. Qed.

Lemma str_nil_app s : "" +:+ s = s.
Proof. reflexivity. Qed.

Lemma str_app_nil s : s +:+ "" = s.
Proof. induction s as [|c s IH]; [done|]. by rewrite str_app_cons, IH. Qed.

Lemma str_app_assoc a b c : a +:+ (b +:+ c) = (a +:+ b) +:+ c.
Proof. induction a as [|x a IH]; [done|]. by rewrite !str_app_cons, IH. Qed.

(** Entry names of jobs: ['%s.job' % name] never makes [ZipFile.write]
    raise. *)
Lemma str_job_nonempty c : c +:+ ".job" <> "".
Proof. destruct c; discriminate. Qed.

Lemma split_slash_job n :
  exists xs c, split_slash (n +:+ ".job") = xs ++ [c +:+ ".job"].
Proof.
  induction n as [|ch n IH].
  - exists [], "". reflexivity.
  - destruct IH as (xs & c & H). rewrite str_app_cons. cbn [split_slash]. rewrite H.
    destruct (Ascii.eqb ch "/").
    + exists ("" :: xs), c. reflexivity.
    + destruct xs as [|x xs].
      * exists [], (String ch c). reflexivity.
      * exists (String ch x :: xs), c. reflexivity.
Qed.

Lemma concat_snoc sep l x : exists y, String.concat sep (l ++ [x]) = y +:+ x.
Proof.
  induction l as [|a l IH].
  - exists "". reflexivity.
  - destruct IH as [y Hy]. exists (a +:+ sep +:+ y). cbn [app].
    destruct (l ++ [x]) as [|b l'] eqn:E; [by destruct l|].
    change (String.concat sep (a :: b :: l')) with (a +:+ sep +:+ String.concat sep (b :: l')).
    rewrite Hy, !str_app_assoc. reflexivity.
Qed.

Lemma lstrip_slash_keeps z ch t : ch <> "/"%char -> lstrip_slash (z +:+ String ch t) <> "".
Proof.
  intros Hch. induction z as [|c z IH].
  - rewrite str_nil_app. destruct ch as [[] [] [] [] [] [] [] []]; cbn; try discriminate.
    by destruct Hch.
  - rewrite str_app_cons. cbn [lstrip_slash].
    destruct c as [[] [] [] [] [] [] [] []]; try discriminate; exact IH.
Qed.

Lemma normpath_job n : exists z, normpath (n +:+ ".job") = z +:+ ".job".
Proof.
  unfold normpath. rewrite (bool_decide_false _ (str_job_nonempty n)).
  destruct (split_slash_job n) as (xs & c & Hs). rewrite Hs, fold_left_app.
  cbn [fold_left].
  set (k := if String.prefix "/" (n +:+ ".job") then _ else _).
  set (acc := fold_left (normpath_step k) xs []).
  assert (Hc : normpath_step k acc (c +:+ ".job") = acc ++ [c +:+ ".job"]).
  { unfold normpath_step.
    rewrite (bool_decide_false _ (str_job_nonempty c)).
    assert (H1 : c +:+ ".job" <> ".").
    { destruct c as [|x c]; [discriminate|]. rewrite str_app_cons.
      intros [= _ E]. by apply (str_job_nonempty c). }
    assert (H2 : c +:+ ".job" <> "..").
    { destruct c as [|x [|y c]]; [discriminate|discriminate|].
      rewrite !str_app_cons. intros [= _ _ E]. by apply (str_job_nonempty c). }
    rewrite (bool_decide_false _ H1), (bool_decide_false _ H2). reflexivity. }
  rewrite Hc. destruct (concat_snoc "/" acc (c +:+ ".job")) as [y Hy]. rewrite Hy.
  rewrite !str_app_assoc.
  case_bool_decide as E.
  - exfalso. exact (str_job_nonempty _ E).
  - eexists. reflexivity.
Qed.

Lemma zip_name_ok_job n : zip_name_ok (n +:+ ".job") = true.
Proof.
  unfold zip_name_ok. destruct (normpath_job n) as [z ->].
  assert (Hd : "."%char <> "/"%char) by discriminate.
  rewrite (bool_decide_false _ (lstrip_slash_keeps z "."%char "job" Hd)).
  reflexivity.
Qed.


Example add_file_relative :
  snd (add_file 0 "a.txt" None (world0 ∅ (empty_project "p")))
  = Err (AzkabanError "relative path not allowed 'a.txt'").
Proof. reflexivity. Qed.

Example add_file_missing :
  snd (add_file 0 "/a.txt" None (world0 ∅ (empty_project "p")))
  = Err (AzkabanError "missing file '/a.txt'").
Proof. reflexivity. Qed.

Example add_file_present :
  _files (w_store (fst (add_file 0 "/a.txt" (Some "x/a.txt")
            (world0 {[ "/a.txt" := RegularFile ]} (empty_project "p")))) 0)
  = {[ "/a.txt" := Some "x/a.txt" ]}.
Proof. reflexivity. Qed.

Example rstrip_slash_ex : rstrip_slash "http://h:8081//" = "http://h:8081".
Proof. reflexivity. Qed.

(** ** Monad lemmas *)

Lemma bind_unfold {A B} (m : M A) (k : A -> M B) w :
  (m ≫= k) w = match m w with
               | (w', Ok a) => k a w'
               | (w', Err e) => (w', Err e)
               end.
Proof. reflexivity. Qed.

Lemma upd_store_eq l p s : upd_store l p s l = p.
Proof. unfold upd_store. by rewrite Nat.eqb_refl. Qed.

Lemma upd_store_ne l l' p s : l' <> l -> upd_store l p s l' = s l'.
Proof. intros H. unfold upd_store. by rewrite (proj2 (Nat.eqb_neq l' l) H). Qed.


Ltac unfold_m :=
  unfold mret, M_ret, mbind, M_bind, raise, catch, get_project, get_fs,
    get_rc, set_fs, set_rc, emit, put_project in *.
Lemma add_file_ok_inv self path ap w w' :
  add_file self path ap w = (w', Ok tt) ->
  isabs path = true /\ _files (w_store w' self) !! path = Some ap /\
  w_fs w' = w_fs w /\ w_rc w' = w_rc w /\ w_trace w' = w_trace w /\
  (forall l, l <> self -> w_store w' l = w_store w l) /\
  _jobs (w_store w' self) = _jobs (w_store w self) /\
  _files (w_store w self) ⊆ _files (w_store w' self).
Proof.
  unfold add_file. unfold_m. cbn.
  destruct (isabs path) eqn:Habs; cbn; [|discriminate].
  destruct (_files (w_store w self) !! path) as [a|] eqn:Hf.
  - case_bool_decide; [|discriminate]. intros [= <-]. subst. auto 10.
  - destruct (exists_path (w_fs w) path); cbn; [|discriminate].
    intros [= <-]. cbn. rewrite upd_store_eq. cbn.
    repeat split; auto.
    + by rewrite lookup_insert_eq.
    + intros l Hl. by rewrite upd_store_ne.
    + by apply insert_subseteq.
Qed.
Lemma add_file_err_inv self path ap w w' e :
  add_file self path ap w = (w', Err e) -> w' = w /\ exists m, e = AzkabanError m.
Proof.
  unfold add_file. unfold_m. cbn.
  destruct (isabs path); cbn; [|intros [= <- <-]; eauto].
  destruct (_files (w_store w self) !! path) as [a|].
  - case_bool_decide; [discriminate|]. intros [= <- <-]; eauto.
  - destruct (exists_path (w_fs w) path); cbn; [discriminate|].
    intros [= <- <-]; eauto.
Qed.

(** C9: after a successful [add_file path archive_path], the same call
    succeeds again and changes nothing, whatever the disk then holds. *)
Theorem add_file_idempotent self path ap w w' fs' :
  add_file self path ap w = (w', Ok tt) ->
  add_file self path ap (World fs' (w_store w') (w_rc w') (w_trace w'))
  = (World fs' (w_store w') (w_rc w') (w_trace w'), Ok tt).
Proof.
  intros H. destruct (add_file_ok_inv _ _ _ _ _ H) as (Habs & Hf & _).
  unfold add_file. unfold_m. cbn. rewrite Habs. cbn. rewrite Hf.
  by rewrite bool_decide_true.
Qed.

(** The outcomes of [add_file]. *)
Lemma add_file_cases self path ap w :
  (isabs path = false ->
   add_file self path ap w
   = (w, Err (AzkabanError ("relative path not allowed " +:+ repr path)))) /\
  (isabs path = true -> forall ap', _files (w_store w self) !! path = Some ap' ->
   ap' <> ap ->
   add_file self path ap w
   = (w, Err (AzkabanError ("inconsistent duplicate " +:+ repr path)))) /\
  (isabs path = true -> _files (w_store w self) !! path = None ->
   exists_path (w_fs w) path = false ->
   add_file self path ap w
   = (w, Err (AzkabanError ("missing file " +:+ repr path)))) /\
  (isabs path = true -> _files (w_store w self) !! path = Some ap ->
   add_file self path ap w = (w, Ok tt)).
Proof.
  unfold add_file. unfold_m. cbn.
  repeat split; intros Habs; rewrite Habs; cbn; auto.
  - intros ap' Hf Hne. rewrite Hf. by rewrite bool_decide_false.
  - intros Hf Hex. by rewrite Hf, Hex.
  - intros Hf. rewrite Hf. by rewrite bool_decide_true.
Qed.

(** C3 (amended): [add_file path archive_path] raises the domain error when
    [path] is relative, when [path] is registered with a different archive
    destination, and when [path] is not registered and does not exist on
    disk; a path already registered with the same destination is accepted
    without looking at the disk. *)
Theorem add_file_errors self path ap w :
  (isabs path = false ->
   add_file self path ap w
   = (w, Err (AzkabanError ("relative path not allowed " +:+ repr path)))) /\
  (isabs path = true -> forall ap', _files (w_store w self) !! path = Some ap' ->
   ap' <> ap ->
   add_file self path ap w
   = (w, Err (AzkabanError ("inconsistent duplicate " +:+ repr path)))) /\
  (isabs path = true -> _files (w_store w self) !! path = None ->
   exists_path (w_fs w) path = false ->
   add_file self path ap w
   = (w, Err (AzkabanError ("missing file " +:+ repr path)))) /\
  (isabs path = true -> _files (w_store w self) !! path = Some ap ->
   add_file self path ap w = (w, Ok tt)).
Proof. exact (add_file_cases self path ap w). Qed.
Lemma for_each_cons {A} (x : A) xs f w :
  for_each (x :: xs) f w = match f x w with
                           | (w1, Ok _) => for_each xs f w1
                           | (w1, Err e) => (w1, Err e)
                           end.
Proof. reflexivity. Qed.

Lemma for_each_app {A} (xs ys : list A) f w :
  for_each (xs ++ ys) f w
  = match for_each xs f w with
    | (w1, Ok _) => for_each ys f w1
    | (w1, Err e) => (w1, Err e)
    end.
Proof.
  revert w. induction xs as [|x xs IH]; intros w; cbn [app].
  - reflexivity.
  - rewrite !for_each_cons. destruct (f x w) as [w1 [[]|e]]; auto.
Qed.

Lemma for_each_map {A B} (g : A -> B) (xs : list A) f w :
  for_each (map g xs) f w = for_each xs (fun x => f (g x)) w.
Proof.
  revert w. induction xs as [|x xs IH]; intros w; [reflexivity|].
  cbn [map]. rewrite !for_each_cons. destruct (f (g x) w) as [w1 [[]|e]]; auto.
Qed.

Lemma for_each_inv {A} (xs : list A) f (R : world -> world -> Prop) :
  PreOrder R ->
  (forall x w w' r, x ∈ xs -> f x w = (w', r) -> R w w') ->
  forall w w' r, for_each xs f w = (w', r) -> R w w'.
Proof.
  intros HR Hf. induction xs as [|x xs IH]; intros w w' r.
  - intros [= <- _]. reflexivity.
  - rewrite for_each_cons. destruct (f x w) as [w1 [[]|e]] eqn:E.
    + intros H. transitivity w1.
      * eapply Hf; [left|]; eauto.
      * eapply IH; [|eauto]. intros; eapply Hf; [right|]; eauto.
    + intros [= <- _]. eapply Hf; [left|]; eauto.
Qed.

Lemma for_each_ok {A} (xs : list A) f (R : world -> world -> Prop)
    (Q : A -> world -> Prop) :
  PreOrder R ->
  (forall x w w' r, x ∈ xs -> f x w = (w', r) -> R w w') ->
  (forall x w w', x ∈ xs -> f x w = (w', Ok tt) -> Q x w') ->
  (forall x w w', Q x w -> R w w' -> Q x w') ->
  forall w w', for_each xs f w = (w', Ok tt) -> forall x, x ∈ xs -> Q x w'.
Proof.
  intros HR Hf HQ Hmono. induction xs as [|x xs IH]; intros w w' H y Hy.
  - by apply elem_of_nil in Hy.
  - rewrite for_each_cons in H. destruct (f x w) as [w1 [[]|e]] eqn:E; [|discriminate].
    assert (Hxs : forall x w w' r, x ∈ xs -> f x w = (w', r) -> R w w')
      by (intros; eapply Hf; [right|]; eauto).
    apply elem_of_cons in Hy as [->|Hy].
    + eapply Hmono; [eapply HQ; [left|]; eauto|].
      eapply for_each_inv; eauto.
    + eapply IH; eauto. intros; eapply HQ; [right|]; eauto.
Qed.

Lemma for_each_err {A} (xs : list A) f w w' e :
  for_each xs f w = (w', Err e) ->
  exists pre x post w1, xs = pre ++ x :: post /\
    for_each pre f w = (w1, Ok tt) /\ f x w1 = (w', Err e).
Proof.
  revert w. induction xs as [|x xs IH]; intros w; [discriminate|].
  rewrite for_each_cons. destruct (f x w) as [w1 [[]|e1]] eqn:E.
  - intros H. destruct (IH _ H) as (pre & y & post & w2 & -> & H1 & H2).
    exists (x :: pre), y, post, w2. split; [done|]. split; [|done].
    rewrite for_each_cons, E. done.
  - intros [= <- <-]. exists [], x, xs, w. done.
Qed.

Lemma for_each_err_from {A} (xs : list A) f (P : exn -> Prop) w w' e :
  (forall x w w' e, x ∈ xs -> f x w = (w', Err e) -> P e) ->
  for_each xs f w = (w', Err e) -> P e.
Proof.
  intros Hf H. destruct (for_each_err _ _ _ _ _ H) as (pre & x & post & w1 & -> & _ & H2).
  eapply Hf; [|eauto]. apply elem_of_app. right. left.
Qed.

Lemma for_each_not_ok {A} (xs : list A) f (C : world -> Prop) x :
  x ∈ xs ->
  (forall y w w' r, y ∈ xs -> C w -> f y w = (w', r) -> C w') ->
  (forall w w', C w -> f x w = (w', Ok tt) -> False) ->
  forall w w', C w -> for_each xs f w <> (w', Ok tt).
Proof.
  intros Hx Hpres Hfail. induction xs as [|y xs IH]; intros w w' HC.
  - by apply elem_of_nil in Hx.
  - rewrite for_each_cons. destruct (f y w) as [w1 [[]|e]] eqn:E; [|discriminate].
    apply elem_of_cons in Hx as [->|Hx].
    + intros _. eapply Hfail; eauto.
    + apply IH; auto.
      * intros; eapply Hpres; [right| |]; eauto.
      * eapply Hpres; [left| |]; eauto.
Qed.
Lemma frame_preorder tgt : PreOrder (frame tgt).
Proof.
  split.
  - intros w. unfold frame. done.
  - intros w1 w2 w3 (H1 & H2 & H3 & H4) (H5 & H6 & H7 & H8).
    unfold frame. repeat split; try congruence.
    intros l Hl. rewrite H5, H1; done.
Qed.

Lemma grows_preorder tgt : PreOrder (grows tgt).
Proof.
  split.
  - intros w. unfold grows. split; [apply frame_preorder|done].
  - intros w1 w2 w3 (F1 & J1 & G1) (F2 & J2 & G2). unfold grows.
    split; [eapply frame_preorder; eauto|]. split; etrans; eauto.
Qed.

Lemma call_hook_frame h self j n w w' r :
  call_hook h self j n w = (w', r) ->
  frame self w w' /\ exists p', h (w_fs w) j (w_store w self) n = (p', r) /\
    w_store w' self = p'.
Proof.
  unfold call_hook. destruct (h (w_fs w) j (w_store w self) n) as [p' r'] eqn:E.
  intros [= <- <-]. cbn. split.
  - unfold frame. cbn. repeat split. intros l Hl. by rewrite upd_store_ne.
  - exists p'. by rewrite upd_store_eq.
Qed.

Lemma add_job_frame on_add tgt n j w w' r :
  add_job on_add tgt n j w = (w', r) -> frame tgt w w'.
Proof.
  unfold add_job. unfold_m. cbn.
  destruct (_jobs (w_store w tgt) !! n).
  - intros [= <- _]. apply frame_preorder.
  - intros H. apply call_hook_frame in H as [H _].
    eapply frame_preorder; [|exact H].
    unfold frame. cbn. repeat split. intros l Hl. by rewrite upd_store_ne.
Qed.
Lemma add_job_grows on_add tgt n j w w' r :
  hook_grows on_add ->
  add_job on_add tgt n j w = (w', r) ->
  grows tgt w w' /\ (r = Ok tt -> _jobs (w_store w' tgt) !! n = Some j) /\
  (forall e, r = Err e -> exists m, e = AzkabanError m).
Proof.
  intros Hg H. pose proof (add_job_frame _ _ _ _ _ _ _ H) as Hfr.
  revert H. unfold add_job. unfold_m. cbn.
  destruct (_jobs (w_store w tgt) !! n) eqn:Hn.
  - intros [= <- <-]. split; [apply grows_preorder|].
    split; [discriminate|]. intros e [= <-]. eauto.
  - intros H. apply call_hook_frame in H as [_ (p' & Hh & Hst)].
    cbn in Hh. rewrite upd_store_eq in Hh.
    apply Hg in Hh as (Hj & Hf & Hr). cbn in Hj, Hf.
    split; [split; [done|]|]; [|split].
    + rewrite Hst. split; [|done]. etrans; [|exact Hj].
      by apply insert_subseteq.
    + intros ->. rewrite Hst. eapply lookup_weaken; [|exact Hj].
      by rewrite lookup_insert_eq.
    + intros e ->. destruct Hr as [|[m Hm]]; [discriminate|]. injection Hm. eauto.
Qed.

Lemma add_file_grows tgt f a w w' r :
  add_file tgt f a w = (w', r) ->
  grows tgt w w' /\ (r = Ok tt -> _files (w_store w' tgt) !! f = Some a) /\
  (forall e, r = Err e -> exists m, e = AzkabanError m).
Proof.
  destruct r as [[]|e].
  - intros H. apply add_file_ok_inv in H as (_ & Hf & Hfs & Hrc & Htr & Hl & Hj & Hsub).
    split; [|split; [done|discriminate]].
    split; [by repeat split|]. by rewrite Hj.
  - intros H. apply add_file_err_inv in H as [-> Hm].
    split; [apply grows_preorder|]. split; [discriminate|]. intros ? [= <-]. done.
Qed.

Lemma do_step_grows on_add tgt s w w' r :
  hook_grows on_add ->
  do_step on_add tgt s w = (w', r) ->
  grows tgt w w' /\ (r = Ok tt -> step_done tgt s w') /\
  (forall e, r = Err e -> exists m, e = AzkabanError m).
Proof.
  intros Hg. destruct s as [n j|f a]; cbn.
  - by apply add_job_grows.
  - by apply add_file_grows.
Qed.

Lemma step_done_mono tgt s w w' :
  step_done tgt s w -> grows tgt w w' -> step_done tgt s w'.
Proof.
  intros Hd (_ & Hj & Hf). destruct s; cbn in *; eapply lookup_weaken; eauto.
Qed.

Lemma do_step_frame on_add tgt s w w' r :
  do_step on_add tgt s w = (w', r) -> frame tgt w w'.
Proof.
  destruct s as [n j|f a]; cbn.
  - apply add_job_frame.
  - intros H. apply add_file_grows in H as [[H _] _]. done.
Qed.
Lemma for_each_ext {A} (xs : list A) f g w :
  (forall x w, f x w = g x w) -> for_each xs f w = for_each xs g w.
Proof.
  intros Hfg. revert w. induction xs as [|x xs IH]; intros w; [reflexivity|].
  rewrite !for_each_cons, Hfg. destruct (g x w) as [w1 [[]|e]]; auto.
Qed.

Lemma jobs_loop_src on_add src tgt w w1 r :
  for_each (map_to_list (_jobs (w_store w src)))
    (fun '(n, j) => add_job on_add tgt n j) w = (w1, r) ->
  w_store w1 src = w_store w src.
Proof.
  destruct (decide (src = tgt)) as [->|Hne].
  - destruct (map_to_list (_jobs (w_store w tgt))) as [|[n j] rest] eqn:E.
    + intros [= <- _]. done.
    + assert (Hn : _jobs (w_store w tgt) !! n = Some j).
      { apply elem_of_map_to_list. rewrite E. left. }
      rewrite for_each_cons. unfold add_job. unfold_m. cbn. rewrite Hn.
      intros [= <- _]. done.
  - intros H. eapply (for_each_inv _ _ (frame tgt)) in H as [Hl _];
      [by apply Hl|apply frame_preorder|].
    intros [n j] ? ? ? _. apply add_job_frame.
Qed.

Lemma merge_into_steps on_add src tgt w :
  merge_into on_add src tgt w
  = for_each (merge_steps (w_store w src)) (do_step on_add tgt) w.
Proof.
  unfold merge_into, merge_steps. rewrite for_each_app, !for_each_map.
  unfold_m. cbn.
  rewrite (for_each_ext _ (fun x => do_step on_add tgt _)
             (fun '(n, j) => add_job on_add tgt n j)) by (intros [] ?; reflexivity).
  match goal with
  | |- (let (_, _) := ?A in _) = (let (_, _) := ?B in _) =>
      replace B with A by (apply for_each_ext; intros [] ?; reflexivity)
  end.
  destruct (for_each _ _ w) as [w1 [[]|e]] eqn:E; [|reflexivity].
  apply jobs_loop_src in E. rewrite E, for_each_map.
  apply for_each_ext. intros [] ?; reflexivity.
Qed.
Lemma merge_steps_elem p s :
  s ∈ merge_steps p <->
  match s with
  | MJob n j => _jobs p !! n = Some j
  | MFile f a => _files p !! f = Some a
  end.
Proof.
  unfold merge_steps. rewrite elem_of_app, !list_elem_of_In, !in_map_iff.
  destruct s as [n j|f a]; split.
  - intros [([n' j'] & [= <- <-] & Hin)|([] & ? & _)]; [|discriminate].
    apply elem_of_map_to_list, list_elem_of_In. done.
  - intros H. left. exists (n, j). split; [done|].
    apply list_elem_of_In, elem_of_map_to_list. done.
  - intros [([] & ? & _)|([f' a'] & [= <- <-] & Hin)]; [discriminate|].
    apply elem_of_map_to_list, list_elem_of_In. done.
  - intros H. right. exists (f, a). split; [done|].
    apply list_elem_of_In, elem_of_map_to_list. done.
Qed.

Lemma for_each_stay {A} (xs : list A) f w :
  (forall x, x ∈ xs -> exists r, f x w = (w, r)) ->
  exists r, for_each xs f w = (w, r).
Proof.
  induction xs as [|x xs IH]; intros H; [by exists (Ok tt)|].
  rewrite for_each_cons. destruct (H x ltac:(left)) as [r ->].
  destruct r as [[]|e]; [|eauto]. apply IH. intros y Hy. apply H. by right.
Qed.

Lemma merge_into_src on_add src tgt w w' r :
  merge_into on_add src tgt w = (w', r) ->
  w_store w' src = w_store w src /\ frame tgt w w'.
Proof.
  rewrite merge_into_steps. intros H.
  assert (Hfr : frame tgt w w').
  { eapply (for_each_inv _ _ (frame tgt)); [apply frame_preorder| |exact H].
    intros s ? ? ? _. apply do_step_frame. }
  split; [|done].
  destruct (decide (src = tgt)) as [->|Hne]; [|by apply Hfr].
  destruct (for_each_stay (merge_steps (w_store w tgt)) (do_step on_add tgt) w)
    as [r' Hr'].
  { intros s Hs. apply merge_steps_elem in Hs. destruct s as [n j|f a]; cbn.
    - unfold add_job. unfold_m. cbn. rewrite Hs. eauto.
    - destruct (isabs f) eqn:Habs.
      + destruct (add_file_cases tgt f a w) as (_ & _ & _ & H4).
        exists (Ok tt). by apply H4.
      + destruct (add_file_cases tgt f a w) as (H1 & _).
        eexists. by apply H1. }
  rewrite Hr' in H. by injection H as <-.
Qed.
(** C10: [merge_into] leaves the source project (even when it is the
    target), every project other than the target, the disk, the configuration and the trace as they
    were; when it raises, the error comes from one of its [add_job] or
    [add_file] steps, and (for hooks that only add entries) the entries of
    the steps before it are in the target. *)
Theorem merge_into_frame (on_add : hook) (src tgt : loc) (w w' : world) r :
  merge_into on_add src tgt w = (w', r) ->
  w_store w' src = w_store w src /\
  (forall l, l <> tgt -> w_store w' l = w_store w l) /\
  w_fs w' = w_fs w /\ w_rc w' = w_rc w /\ w_trace w' = w_trace w /\
  (forall e, r = Err e ->
   exists pre s post w1,
     merge_steps (w_store w src) = pre ++ s :: post /\
     for_each pre (do_step on_add tgt) w = (w1, Ok tt) /\
     do_step on_add tgt s w1 = (w', Err e) /\
     (hook_grows on_add -> forall s', s' ∈ pre -> step_done tgt s' w')).
Proof.
  intros H. destruct (merge_into_src _ _ _ _ _ _ H) as (Hsrc & Hl & Hfs & Hrc & Htr).
  do 5 (split; [done|]).
  intros e ->. rewrite merge_into_steps in H.
  destruct (for_each_err _ _ _ _ _ H) as (pre & s & post & w1 & Heq & Hpre & Hs).
  exists pre, s, post, w1. do 3 (split; [done|]).
  intros Hg s' Hs'.
  eapply step_done_mono.
  - eapply (for_each_ok pre _ (grows tgt)); eauto.
    + apply grows_preorder.
    + intros x ? ? ? _ Hx. eapply do_step_grows; eauto.
    + intros x ? ? _ Hx. eapply do_step_grows; eauto.
    + intros. eapply step_done_mono; eauto.
  - eapply do_step_grows; eauto.
Qed.

(** C5: when the [on_add] hooks only add entries and fail only with the
    domain error, a merge that succeeds leaves every job and every file
    entry of the source in the target, and a merge where a source job name is
    already a job of the target, or a source file is already registered in
    the target with another archive path, raises the domain error. *)
Theorem merge_into_copies (on_add : hook) (src tgt : loc) (w w' : world) r :
  hook_grows on_add ->
  merge_into on_add src tgt w = (w', r) ->
  (r = Ok tt ->
   (forall n j, _jobs (w_store w src) !! n = Some j ->
                _jobs (w_store w' tgt) !! n = Some j) /\
   (forall f a, _files (w_store w src) !! f = Some a ->
                _files (w_store w' tgt) !! f = Some a)) /\
  ((exists n, is_Some (_jobs (w_store w src) !! n) /\
              is_Some (_jobs (w_store w tgt) !! n)) \/
   (exists f a a', _files (w_store w src) !! f = Some a /\
                   _files (w_store w tgt) !! f = Some a' /\ a' <> a) ->
   exists m, r = Err (AzkabanError m)).
Proof.
  intros Hg H. rewrite merge_into_steps in H.
  assert (Hok : forall s, r = Ok tt -> s ∈ merge_steps (w_store w src) -> step_done tgt s w').
  { intros s -> Hs. eapply (for_each_ok _ _ (grows tgt)); eauto.
    - apply grows_preorder.
    - intros x ? ? ? _ Hx. eapply do_step_grows; eauto.
    - intros x ? ? _ Hx. eapply do_step_grows; eauto.
    - intros. eapply step_done_mono; eauto. }
  split.
  - intros Hr. split.
    + intros n j Hn. apply (Hok (MJob n j) Hr). by apply merge_steps_elem.
    + intros f a Hf. apply (Hok (MFile f a) Hr). by apply merge_steps_elem.
  - intros Hc. destruct r as [[]|e].
    + exfalso. revert H.
      destruct Hc as [(n & [j Hj] & [j0 Hj0])|(f & a & a' & Hf & Hf' & Hne)].
      * apply (for_each_not_ok _ _ (fun w => is_Some (_jobs (w_store w tgt) !! n))
                 (MJob n j)).
        -- by apply merge_steps_elem.
        -- intros y w1 w2 r' _ [x Hx] Hy. apply do_step_grows in Hy as ((_ & Hsub & _) & _); auto.
           exists x. eapply lookup_weaken; eauto.
        -- intros w1 w2 [x Hx]. cbn. unfold add_job. unfold_m. cbn. by rewrite Hx.
        -- eauto.
      * apply (for_each_not_ok _ _ (fun w => _files (w_store w tgt) !! f = Some a')
                 (MFile f a)).
        -- by apply merge_steps_elem.
        -- intros y w1 w2 r' _ Hx Hy. apply do_step_grows in Hy as ((_ & _ & Hsub) & _); auto.
           eapply lookup_weaken; eauto.
        -- intros w1 w2 Hx Hy. cbn in Hy.
           apply add_file_grows in Hy as ((_ & _ & Hsub) & Hd & _).
           specialize (Hd eq_refl). eapply lookup_weaken in Hx; [|exact Hsub].
           congruence.
        -- done.
    + eapply (for_each_err_from _ _ (fun e => exists m, e = AzkabanError m)) in H.
      * destruct H as [m ->]. eauto.
      * intros s ? ? ? _ Hs. eapply do_step_grows in Hs; eauto. by apply Hs.
Qed.
(** C4: [add_job name job] raises the domain error, with the state unchanged,
    when [name] is already a job of the project; otherwise it registers [job]
    under [name], leaving the other jobs, the files and the name of the
    project as they were, and then calls the [on_add] hook.  A map has one
    entry per key, so job names stay unique. *)
Theorem add_job_registers (on_add : hook) (self : loc) (n : string) (j : job)
    (w : world) :
  (forall j0, _jobs (w_store w self) !! n = Some j0 ->
   add_job on_add self n j w
   = (w, Err (AzkabanError ("duplicate job name " +:+ repr n)))) /\
  (_jobs (w_store w self) !! n = None ->
   let p1 := set_jobs (<[n := j]> (_jobs (w_store w self))) (w_store w self) in
   add_job on_add self n j w
   = call_hook on_add self j n
       (World (w_fs w) (upd_store self p1 (w_store w)) (w_rc w) (w_trace w)) /\
   _jobs p1 !! n = Some j /\
   (forall n', n' <> n -> _jobs p1 !! n' = _jobs (w_store w self) !! n') /\
   _files p1 = _files (w_store w self) /\ name p1 = name (w_store w self)).
Proof.
  unfold add_job. unfold_m. cbn. split.
  - intros j0 Hn. by rewrite Hn.
  - intros Hn. rewrite Hn. cbn. split; [done|]. split; [by rewrite lookup_insert_eq|].
    split; [|done]. intros n' Hne. by rewrite lookup_insert_ne.
Qed.

(** C3, counterexample: once registered, a path that has disappeared from
    disk can be added again without error. *)
Lemma add_file_reappears :
  let w1 := world0 {[ "/a.txt" := RegularFile ]} (empty_project "p") in
  let w2 := fst (add_file 0 "/a.txt" None w1) in
  let w3 := World ∅ (w_store w2) (w_rc w2) (w_trace w2) in
  snd (add_file 0 "/a.txt" None w1) = Ok tt /\
  exists_path (w_fs w3) "/a.txt" = false /\
  add_file 0 "/a.txt" None w3 = (w3, Ok tt).
Proof. split; [reflexivity|]. split; reflexivity. Qed.
Lemma call_hook_run h self j n w p' r :
  h (w_fs w) j (w_store w self) n = (p', r) ->
  call_hook h self j n w
  = (World (w_fs w) (upd_store self p' (w_store w)) (w_rc w) (w_trace w), r).
Proof. intros H. unfold call_hook. by rewrite H. Qed.

Lemma zip_write_run path a src w acc :
  zip_name_ok a = true ->
  w_fs w !! path = Some (ZipArchive acc) ->
  zip_write path a src w
  = (World (<[path := ZipArchive (acc ++ [(zip_name a, src)])]> (w_fs w))
       (w_store w) (w_rc w) (w_trace w), Ok tt).
Proof. intros Ha H. unfold zip_write. rewrite Ha. unfold_m. cbn. by rewrite H. Qed.

Lemma exists_path_insert fs k v f :
  exists_path fs f = true -> exists_path (<[k := v]> fs) f = true.
Proof.
  unfold exists_path. intros H. apply bool_decide_eq_true in H.
  apply bool_decide_eq_true. destruct (decide (k = f)) as [->|Hne].
  - by rewrite lookup_insert_eq.
  - by rewrite lookup_insert_ne.
Qed.

Lemma build_jobs_loop on_build self path js :
  hook_keeps_files on_build ->
  forall acc w, w_fs w !! path = Some (ZipArchive acc) ->
  exists w', for_each js (fun '(n, j) =>
                call_hook on_build self j n ;;
                zip_write path (n +:+ ".job") (JobText (job_build j))) w = (w', Ok tt) /\
    w_fs w' = <[path := ZipArchive (acc ++ job_entries js)]> (w_fs w) /\
    _files (w_store w' self) = _files (w_store w self).
Proof.
  intros Hk. induction js as [|[n j] js IH]; intros acc w Hp.
  - exists w. cbn. rewrite app_nil_r. split; [done|]. split; [|done].
    by rewrite insert_id.
  - rewrite for_each_cons. cbv beta iota. rewrite bind_unfold.
    destruct (Hk (w_fs w) j (w_store w self) n) as (p' & Hh & Hpf).
    rewrite (call_hook_run _ _ _ _ _ _ _ Hh).
    rewrite (zip_write_run _ _ _ _ acc) by (apply zip_name_ok_job || done).
    set (w1 := World _ _ _ _).
    destruct (IH (acc ++ [(zip_name (n +:+ ".job"), JobText (job_build j))]) w1)
      as (w' & Hrun & Hfs & Hf).
    { cbn. by rewrite lookup_insert_eq. }
    exists w'. split; [exact Hrun|]. split.
    + rewrite Hfs. cbn. rewrite insert_insert_eq, <- app_assoc. done.
    + rewrite Hf. cbn. by rewrite upd_store_eq.
Qed.

Lemma build_files_loop path fl :
  forall acc w, w_fs w !! path = Some (ZipArchive acc) ->
  (forall f a, (f, a) ∈ fl -> exists_path (w_fs w) f = true) ->
  (forall f a, (f, a) ∈ fl -> zip_name_ok (default f a) = true) ->
  for_each fl (fun '(fpath, apath) => zip_write_file path fpath apath) w
  = (World (<[path := ZipArchive (acc ++ file_entries fl)]> (w_fs w))
       (w_store w) (w_rc w) (w_trace w), Ok tt).
Proof.
  induction fl as [|[f a] fl IH]; intros acc w Hp Hex Hok.
  - cbn. rewrite app_nil_r, insert_id by done. by destruct w.
  - rewrite for_each_cons. cbv beta iota.
    assert (Hw : zip_write_file path f a w
                 = (World (<[path := ZipArchive (acc ++ [(zip_name (default f a), FromDisk f)])]> (w_fs w))
                      (w_store w) (w_rc w) (w_trace w), Ok tt)).
    { unfold zip_write_file. rewrite bind_unfold. cbn.
      rewrite (Hex f a ltac:(left)). apply zip_write_run; [|done].
      exact (Hok f a ltac:(left)). }
    rewrite Hw, (IH (acc ++ [(zip_name (default f a), FromDisk f)])).
    + cbn. rewrite insert_insert_eq, <- app_assoc. done.
    + cbn. by rewrite lookup_insert_eq.
    + intros f' a' Hin. cbn. unfold exists_path in *.
      specialize (Hex f' a' ltac:(by right)). case_bool_decide; [|done].
      apply bool_decide_true. destruct (decide (f' = path)) as [->|Hne].
      * by rewrite lookup_insert_eq.
      * by rewrite lookup_insert_ne.
    + intros f' a' Hin. apply Hok. by right.
Qed.

Lemma exists_path_insert_ne fs k v f :
  f <> k -> exists_path (<[k := v]> fs) f = exists_path fs f.
Proof. intros H. unfold exists_path. by rewrite lookup_insert_ne. Qed.

Lemma build_files_loop_err path fl :
  forall acc w, w_fs w !! path = Some (ZipArchive acc) ->
  (forall f a, (f, a) ∈ fl -> zip_name_ok (default f a) = true) ->
  (exists f a, (f, a) ∈ fl /\ f <> path /\ exists_path (w_fs w) f = false) ->
  exists w' msg,
    for_each fl (fun '(fpath, apath) => zip_write_file path fpath apath) w
    = (w', Err (OSError msg)) /\
    exists acc', w_fs w' !! path = Some (ZipArchive acc').
Proof.
  induction fl as [|[f a] fl IH]; intros acc w Hp Hok (f0 & a0 & Hin & Hne & Hmiss).
  - by apply elem_of_nil in Hin.
  - rewrite for_each_cons. cbv beta iota.
    unfold zip_write_file at 1. rewrite bind_unfold. cbn [get_fs].
    destruct (exists_path (w_fs w) f) eqn:Hf.
    + rewrite (zip_write_run _ _ _ _ acc); [|exact (Hok f a ltac:(left))|done].
      set (w1 := World _ _ _ _).
      destruct (IH (acc ++ [(zip_name (default f a), FromDisk f)]) w1)
        as (w' & msg & Hrun & Hacc).
      * cbn. by rewrite lookup_insert_eq.
      * intros f' a' Hin'. apply Hok. by right.
      * apply elem_of_cons in Hin as [[= -> ->]|Hin]; [congruence|].
        exists f0, a0. split; [done|]. split; [done|].
        cbn. by rewrite exists_path_insert_ne.
      * exists w', msg. split; [exact Hrun|exact Hacc].
    + do 2 eexists. split; [reflexivity|]. by exists acc.
Qed.

(** C1 (amended): [build path overwrite] raises the domain error when a
    file exists at [path] and [overwrite] is false, and when the project has
    no job and no file, in both cases before anything is written.  Otherwise,
    when the [on_build] hooks succeed without changing the registered files
    and no archive name of a file normalises to the root (which makes
    [ZipFile.write] raise [IndexError]): if every registered file exists on
    disk, it succeeds and writes at [path] a zip holding one entry per job,
    named ['<name>.job'], followed by one entry per registered file, named by
    its archive path or, when none was given, its own path, each name
    normalised as [ZipFile.write] does ([os.path.normpath], leading slashes
    removed); if a registered file other than [path] is missing, it raises
    [OSError] after the archive has been created at [path]. *)
Theorem build_spec (on_build : hook) (archive_size : list (string * zsrc) -> string)
    (self : loc) (path : string) (overwrite : bool) (w : world) :
  (exists_path (w_fs w) path = true -> overwrite = false ->
   build on_build archive_size self path overwrite w
   = (w, Err (AzkabanError ("path " +:+ repr path +:+ " already exists")))) /\
  ((exists_path (w_fs w) path = false \/ overwrite = true) ->
   _jobs (w_store w self) = ∅ -> _files (w_store w self) = ∅ ->
   build on_build archive_size self path overwrite w
   = (w, Err (AzkabanError "building empty project"))) /\
  (hook_keeps_files on_build ->
   (exists_path (w_fs w) path = false \/ overwrite = true) ->
   (_jobs (w_store w self) <> ∅ \/ _files (w_store w self) <> ∅) ->
   (forall f a, _files (w_store w self) !! f = Some a ->
                zip_name_ok (default f a) = true) ->
   ((forall f a, _files (w_store w self) !! f = Some a ->
                 exists_path (w_fs w) f = true) ->
    exists w', build on_build archive_size self path overwrite w = (w', Ok tt) /\
      w_fs w' = <[path := ZipArchive
                   (job_entries (map_to_list (_jobs (w_store w self))) ++
                    file_entries (map_to_list (_files (w_store w self))))]> (w_fs w)) /\
   ((exists f a, _files (w_store w self) !! f = Some a /\ f <> path /\
                 exists_path (w_fs w) f = false) ->
    exists w' msg, build on_build archive_size self path overwrite w
                   = (w', Err (OSError msg)) /\
      exists_path (w_fs w') path = true)).
Proof.
  unfold build. rewrite bind_unfold. cbn [get_fs]. split; [|split].
  - intros -> ->. reflexivity.
  - intros Hd Hj Hf.
    assert (Hc : exists_path (w_fs w) path && negb overwrite = false)
      by (destruct Hd as [->| ->]; [|rewrite andb_false_r]; done).
    rewrite Hc. rewrite bind_unfold. cbn [get_project]. rewrite Hj, Hf. reflexivity.
  - intros Hk Hd Hne Hok.
    assert (Hc : exists_path (w_fs w) path && negb overwrite = false)
      by (destruct Hd as [->| ->]; [|rewrite andb_false_r]; done).
    rewrite Hc. rewrite bind_unfold. cbn [get_project].
    assert (He : bool_decide (_jobs (w_store w self) = ∅) &&
                 bool_decide (_files (w_store w self) = ∅) = false).
    { destruct Hne as [H|H]; [rewrite (bool_decide_false _ H)|
        rewrite (bool_decide_false _ H), andb_false_r]; done. }
    rewrite He. rewrite !bind_unfold.
    set (w0 := World (<[path := ZipArchive []]> (w_fs w)) (w_store w) (w_rc w) (w_trace w)).
    assert (Ho : zip_open path w = (w0, Ok tt)) by reflexivity.
    rewrite Ho.
    destruct (build_jobs_loop on_build self path (map_to_list (_jobs (w_store w self))) Hk
                [] w0) as (w1 & Hrun & Hfs1 & Hf1).
    { cbn. by rewrite lookup_insert_eq. }
    rewrite bind_unfold, Hrun, bind_unfold. cbn [get_project]. cbn in Hf1. rewrite Hf1.
    assert (Hok' : forall f a, (f, a) ∈ map_to_list (_files (w_store w self)) ->
                   zip_name_ok (default f a) = true).
    { intros f a Hin. apply elem_of_map_to_list in Hin. by eapply Hok. }
    split.
    + intros Hex. rewrite bind_unfold.
      rewrite (build_files_loop path _ (job_entries (map_to_list (_jobs (w_store w self))))).
      * eexists. split; [reflexivity|]. cbn. rewrite Hfs1. cbn.
        by rewrite !insert_insert_eq.
      * by rewrite Hfs1, lookup_insert_eq.
      * intros f a Hin. apply elem_of_map_to_list in Hin. apply Hex in Hin.
        rewrite Hfs1. cbn. by do 2 apply exists_path_insert.
      * exact Hok'.
    + intros (f & a & Hf & Hfp & Hmiss).
      destruct (build_files_loop_err path (map_to_list (_files (w_store w self)))
                  (job_entries (map_to_list (_jobs (w_store w self)))) w1)
        as (w' & msg & Hrun' & acc' & Hacc).
      * by rewrite Hfs1, lookup_insert_eq.
      * exact Hok'.
      * exists f, a. split; [by apply elem_of_map_to_list|]. split; [done|].
        rewrite Hfs1. cbn. by rewrite !exists_path_insert_ne.
      * rewrite bind_unfold, Hrun'. exists w', msg. split; [reflexivity|].
        unfold exists_path. rewrite Hacc. apply bool_decide_true. by eexists.
Qed.
Ltac unfold_remote :=
  unfold _get_credentials, resolve_alias, needs_login, post, req_json,
    getitem, wrap_request_error in *; unfold_m.

Lemma rc_defaults_url : rc_defaults !! "url" = None.
Proof. reflexivity. Qed.

Lemma creds_alias_missing (server : request -> reply) (gu tp : string)
    (url user password : option string) (a : string) (w : world) :
  a <> "" ->
  let cfg := w_rc w in
  (cfg !! a = None ->
   _get_credentials server gu tp url user password (Some a) w
   = (w, Err (AzkabanError ("missing alias " +:+ repr a)))) /\
  (forall sec, cfg !! a = Some sec -> sec !! "url" = None ->
   _get_credentials server gu tp url user password (Some a) w
   = (w, Err (AzkabanError ("missing url for alias " +:+ repr a)))).
Proof.
  intros Ha cfg. unfold_remote. cbn.
  rewrite (bool_decide_false _ Ha). cbn. unfold has_section, has_option. split.
  - intros Hn. subst cfg. rewrite Hn. reflexivity.
  - intros sec Hs Hu. subst cfg. rewrite Hs. cbn. rewrite Hu, rc_defaults_url. reflexivity.
Qed.
Lemma cfg_get_some (cfg : config) a sec o v :
  cfg !! a = Some sec -> sec !! o = Some v -> cfg_get cfg a o = v.
Proof. intros H1 H2. unfold cfg_get. rewrite H1. cbn. by rewrite H2. Qed.

Lemma creds_alias_login (server : request -> reply) (gu tp : string)
    (url user password : option string) (a : string) (w : world) :
  a <> "" ->
  let cfg := w_rc w in
  forall sec u0, cfg !! a = Some sec -> sec !! "url" = Some u0 ->
  let url1 := rstrip_slash u0 in
  let usr := cfg_get cfg a "user" in
  let tok := cfg_get cfg a "session_id" in
  let probe := Request (url1 +:+ "/manager") [("session.id", tok)] None in
  (tok <> "" -> forall j, server probe = RAnswer "" j ->
   _get_credentials server gu tp url user password (Some a) w
   = (World (w_fs w) (w_store w) cfg (w_trace w ++ [Posted probe]),
      Ok (url1, tok))) /\
  ((tok = "" \/ exists t j, server probe = RAnswer t j /\ t <> "") ->
   let user1 := py_or (Some usr) gu in
   let password1 := py_or password tp in
   let login := Request url1 [("action", "login"); ("username", user1);
                              ("password", password1)] None in
   forall t res sid,
   server login = RAnswer t (Some res) ->
   res !! "error" = None -> res !! "session.id" = Some sid ->
   _get_credentials server gu tp url user password (Some a) w
   = (World (w_fs w) (w_store w) (cfg_set cfg a "session_id" sid)
        (w_trace w ++ (if bool_decide (tok = "") then [] else [Posted probe]) ++
         (if truthy password then []
          else [Prompted ("azkaban password for " +:+ user1 +:+ ": ")]) ++
         [Posted login]),
      Ok (url1, sid))).
Proof.
  intros Ha cfg sec u0 Hs Hu url1 usr tok probe.
  assert (Hurl : cfg_get cfg a "url" = u0) by (eapply cfg_get_some; eauto).
  unfold_remote. cbn -[cfg_get rstrip_slash py_or].
  rewrite (bool_decide_false _ Ha). cbn -[cfg_get rstrip_slash py_or].
  unfold has_section, has_option. subst cfg. rewrite Hs. cbn -[cfg_get rstrip_slash py_or].
  rewrite Hu. cbn -[cfg_get rstrip_slash py_or]. rewrite Hurl.
  fold usr tok url1. fold probe.
  split.
  - intros Htok j Hp. rewrite (bool_decide_false _ Htok). cbn -[cfg_get rstrip_slash py_or].
    rewrite Hp. reflexivity.
  - intros Hcase t res sid Hl He Hsid.
    assert (Hpw : py_or password tp = if truthy password then default "" password else tp).
    { destruct password as [p|]; cbn; [|done].
      by destruct (negb (bool_decide (p = ""))). }
    rewrite Hpw in Hl |- *.
    destruct (decide (tok = "")) as [Htok|Htok].
    + rewrite (bool_decide_true _ Htok). cbn -[cfg_get rstrip_slash py_or].
      destruct (truthy password); cbn -[cfg_get rstrip_slash py_or];
        rewrite Hl; cbn -[cfg_get rstrip_slash py_or]; rewrite He, Hsid;
        cbn -[cfg_get rstrip_slash py_or]; rewrite <- ?app_assoc; reflexivity.
    + destruct Hcase as [|(t0 & j0 & Hp & Ht0)]; [done|].
      rewrite (bool_decide_false _ Htok). cbn -[cfg_get rstrip_slash py_or].
      rewrite Hp. cbn -[cfg_get rstrip_slash py_or].
      rewrite (bool_decide_false _ Ht0). cbn -[cfg_get rstrip_slash py_or].
      destruct (truthy password); cbn -[cfg_get rstrip_slash py_or];
        rewrite Hl; cbn -[cfg_get rstrip_slash py_or]; rewrite He, Hsid;
        cbn -[cfg_get rstrip_slash py_or]; rewrite <- ?app_assoc; reflexivity.
Qed.
Section Preserves.
Context (R : world -> world -> Prop) `{!PreOrder R}.

Lemma pres_ret {A} (a : A) : preserves R (mret a).
Proof. intros w w' r [= <- _]. reflexivity. Qed.

Lemma pres_raise {A} e : preserves R (@raise A e).
Proof. intros w w' r [= <- _]. reflexivity. Qed.

Lemma pres_bind {A B} (m : M A) (k : A -> M B) :
  preserves R m -> (forall a, preserves R (k a)) -> preserves R (m ≫= k).
Proof.
  intros Hm Hk w w' r. rewrite bind_unfold.
  destruct (m w) as [w1 [a|e]] eqn:E.
  - intros H. transitivity w1; [eapply Hm; eauto|eapply Hk; eauto].
  - intros [= <- _]. eapply Hm; eauto.
Qed.

Lemma pres_catch {A} (m : M A) h :
  preserves R m -> (forall e, preserves R (h e)) -> preserves R (catch m h).
Proof.
  intros Hm Hh w w' r. unfold catch.
  destruct (m w) as [w1 [a|e]] eqn:E.
  - intros [= <- _]. eapply Hm; eauto.
  - intros H. transitivity w1; [eapply Hm; eauto|eapply Hh; eauto].
Qed.

Lemma pres_get_fs : preserves R get_fs.
Proof. intros w w' r [= <- _]. reflexivity. Qed.
Lemma pres_get_rc : preserves R get_rc.
Proof. intros w w' r [= <- _]. reflexivity. Qed.
Lemma pres_get_project l : preserves R (get_project l).
Proof. intros w w' r [= <- _]. reflexivity. Qed.
End Preserves.

Global Instance trace_only_preorder : PreOrder trace_only.
Proof.
  split; [intros w; done|]. intros w1 w2 w3 (A1 & B1 & C1) (A2 & B2 & C2).
  repeat split; congruence.
Qed.
Global Instance io_only_preorder : PreOrder io_only.
Proof.
  split; [intros w; done|]. intros w1 w2 w3 (A1 & B1) (A2 & B2).
  repeat split; congruence.
Qed.

Lemma trace_only_io w w' : trace_only w w' -> io_only w w'.
Proof. by intros (? & ? & ?). Qed.

Lemma pres_emit ev : preserves trace_only (emit ev).
Proof. intros w w' r [= <- _]. done. Qed.

Lemma pres_post server rq : preserves trace_only (post server rq).
Proof.
  unfold post. apply (pres_bind trace_only); [apply pres_emit|].
  intros _. destruct (server rq); [apply (pres_raise trace_only)|apply (pres_ret trace_only)].
Qed.

Lemma pres_set_rc c : preserves io_only (set_rc c).
Proof. intros w w' r [= <- _]. done. Qed.

Lemma pres_weaken {A} (m : M A) : preserves trace_only m -> preserves io_only m.
Proof. intros H w w' r E. apply trace_only_io. eauto. Qed.

Ltac solve_pres R :=
  repeat first
    [ apply (pres_bind R); [|intros ?]
    | apply (pres_catch R); [|intros ?]
    | apply (pres_ret R)
    | apply (pres_raise R)
    | apply (pres_get_fs R)
    | apply (pres_get_rc R)
    | apply (pres_get_project R)
    | apply pres_emit | apply pres_post | apply pres_set_rc
    | apply pres_weaken; apply pres_emit
    | apply pres_weaken; apply pres_post
    | progress unfold _get_credentials, resolve_alias, needs_login, req_json,
        getitem, wrap_request_error
    | case_match ].

Lemma get_credentials_io server gu tp url user password alias :
  preserves io_only (_get_credentials server gu tp url user password alias).
Proof. solve_pres io_only. Qed.

Lemma get_credentials_no_alias_rc (server : request -> reply) (gu tp : string)
    (url user password : option string) :
  preserves trace_only (_get_credentials server gu tp url user password None).
Proof. solve_pres trace_only. Qed.
Lemma filter_posted_app l1 l2 :
  List.filter is_posted (l1 ++ l2) = List.filter is_posted l1 ++ List.filter is_posted l2.
Proof.
  induction l1 as [|e l1 IH]; [done|]. cbn. destruct (is_posted e); cbn; by rewrite IH.
Qed.

(** C8: once credentials are resolved to a url and a session id, [upload]
    of an existing archive posts exactly one request, to [<url>/manager] with
    [ajax=upload], the session id and the project name, and [run] posts
    exactly one request, to [<url>/executor] with [ajax=executeFlow], the
    session id, the project name and the flow. *)
Theorem upload_run_requests (server : request -> reply) (gu tp : string)
    (self : loc) (url user password alias : option string) (w w1 : world)
    (u sid : string) :
  _get_credentials server gu tp url user password alias w = (w1, Ok (u, sid)) ->
  (forall archive, exists_path (w_fs w) archive = true ->
   forall w' r,
   upload server gu tp self archive url user password alias w = (w', r) ->
   List.filter is_posted (w_trace w')
   = List.filter is_posted (w_trace w1) ++
     [Posted (Request (u +:+ "/manager")
                [("ajax", "upload"); ("session.id", sid);
                 ("project", name (w_store w self))] (Some archive))]) /\
  (forall flow w' r,
   run server gu tp self flow url user password alias w = (w', r) ->
   List.filter is_posted (w_trace w')
   = List.filter is_posted (w_trace w1) ++
     [Posted (Request (u +:+ "/executor")
                [("ajax", "executeFlow"); ("session.id", sid);
                 ("project", name (w_store w self)); ("flow", flow)] None)]).
Proof.
  intros Hc. destruct (get_credentials_io _ _ _ _ _ _ _ _ _ _ Hc) as [Hfs Hst].
  split.
  - intros archive Hex w' r. unfold upload. rewrite bind_unfold, Hc.
    unfold post, req_json, getitem, wrap_request_error. unfold_m. cbn.
    rewrite Hfs, Hex, Hst. cbn.
    destruct (server _) as [e|text json]; cbn; [destruct e; cbn|];
      repeat (case_match; simplify_eq; cbn); intros [= <- <-]; cbn;
      rewrite ?filter_posted_app; cbn; rewrite ?app_nil_r; reflexivity.
  - intros flow w' r. unfold run. rewrite bind_unfold, Hc.
    unfold post, req_json, getitem, wrap_request_error. unfold_m. cbn.
    rewrite Hst.
    destruct (server _) as [e|text json]; cbn; [destruct e; cbn|];
      repeat (case_match; simplify_eq; cbn); intros [= <- <-]; cbn;
      rewrite ?filter_posted_app; cbn; rewrite ?app_nil_r; reflexivity.
Qed.
(** C6 (amended): once credentials are resolved and the request is answered,
    [upload] and [run] raise the domain error with the message of an [error]
    field of the JSON reply; without it they return the parsed reply when it
    has [projectId] and [version] (upload) or [execid] (run), and raise
    [KeyError] for a missing field; a reply that is not JSON raises
    [ValueError]. *)
Theorem upload_run_responses (server : request -> reply) (gu tp : string)
    (self : loc) (url user password alias : option string) (w w1 : world)
    (u sid : string) :
  _get_credentials server gu tp url user password alias w = (w1, Ok (u, sid)) ->
  (forall archive text json,
   exists_path (w_fs w) archive = true ->
   server (Request (u +:+ "/manager")
             [("ajax", "upload"); ("session.id", sid);
              ("project", name (w_store w self))] (Some archive))
   = RAnswer text json ->
   let r := snd (upload server gu tp self archive url user password alias w) in
   (json = None -> r = Err (ValueError "No JSON object could be decoded")) /\
   (forall res, json = Some res ->
    (forall m, res !! "error" = Some m -> r = Err (AzkabanError m)) /\
    (res !! "error" = None -> is_Some (res !! "projectId") ->
     is_Some (res !! "version") -> r = Ok res) /\
    (res !! "error" = None -> res !! "projectId" = None ->
     r = Err (KeyError "projectId")) /\
    (res !! "error" = None -> is_Some (res !! "projectId") ->
     res !! "version" = None -> r = Err (KeyError "version")))) /\
  (forall flow text json,
   server (Request (u +:+ "/executor")
             [("ajax", "executeFlow"); ("session.id", sid);
              ("project", name (w_store w self)); ("flow", flow)] None)
   = RAnswer text json ->
   let r := snd (run server gu tp self flow url user password alias w) in
   (json = None -> r = Err (ValueError "No JSON object could be decoded")) /\
   (forall res, json = Some res ->
    (forall m, res !! "error" = Some m -> r = Err (AzkabanError m)) /\
    (res !! "error" = None -> is_Some (res !! "execid") -> r = Ok res) /\
    (res !! "error" = None -> res !! "execid" = None ->
     r = Err (KeyError "execid")))).
Proof.
  intros Hc. destruct (get_credentials_io _ _ _ _ _ _ _ _ _ _ Hc) as [Hfs Hst].
  split.
  - intros archive text json Hex Hs r. subst r. unfold upload. rewrite bind_unfold, Hc.
    unfold post, req_json, getitem, wrap_request_error. unfold_m. cbn.
    rewrite Hfs, Hex, Hst. cbn. rewrite Hs. cbn.
    split; [intros ->; reflexivity|]. intros res ->.
    split; [|split; [|split]].
    + intros m Hm. by rewrite Hm.
    + intros He [p Hp] [v Hv]. by rewrite He, Hp, Hv.
    + intros He Hp. by rewrite He, Hp.
    + intros He [p Hp] Hv. by rewrite He, Hp, Hv.
  - intros flow text json Hs r. subst r. unfold run. rewrite bind_unfold, Hc.
    unfold post, req_json, getitem, wrap_request_error. unfold_m. cbn.
    rewrite Hst. cbn. rewrite Hs. cbn.
    split; [intros ->; reflexivity|]. intros res ->.
    split; [|split].
    + intros m Hm. by rewrite Hm.
    + intros He [x Hx]. by rewrite He, Hx.
    + intros He Hx. by rewrite He, Hx.
Qed.

(** C7: with an alias, [_get_credentials] raises the domain error when the
    alias section or its url is missing in the configuration; otherwise it
    takes the url, user and cached session id from the section.  A non-empty
    cached id accepted by the probe request is returned as is; when there is
    none or the probe rejects it, the password is prompted for unless one was
    passed, a login request exchanges user and password for a new session
    id, and that id is written back under the alias. *)
Theorem get_credentials_spec (server : request -> reply) (gu tp : string)
    (url user password : option string) (a : string) (w : world) :
  a <> "" ->
  let cfg := w_rc w in
  (cfg !! a = None ->
   _get_credentials server gu tp url user password (Some a) w
   = (w, Err (AzkabanError ("missing alias " +:+ repr a)))) /\
  (forall sec, cfg !! a = Some sec -> sec !! "url" = None ->
   _get_credentials server gu tp url user password (Some a) w
   = (w, Err (AzkabanError ("missing url for alias " +:+ repr a)))) /\
  (forall sec u0, cfg !! a = Some sec -> sec !! "url" = Some u0 ->
   let url1 := rstrip_slash u0 in
   let usr := cfg_get cfg a "user" in
   let tok := cfg_get cfg a "session_id" in
   let probe := Request (url1 +:+ "/manager") [("session.id", tok)] None in
   (tok <> "" -> forall j, server probe = RAnswer "" j ->
    _get_credentials server gu tp url user password (Some a) w
    = (World (w_fs w) (w_store w) cfg (w_trace w ++ [Posted probe]),
       Ok (url1, tok))) /\
   ((tok = "" \/ exists t j, server probe = RAnswer t j /\ t <> "") ->
    let user1 := py_or (Some usr) gu in
    let password1 := py_or password tp in
    let login := Request url1 [("action", "login"); ("username", user1);
                               ("password", password1)] None in
    forall t res sid,
    server login = RAnswer t (Some res) ->
    res !! "error" = None -> res !! "session.id" = Some sid ->
    _get_credentials server gu tp url user password (Some a) w
    = (World (w_fs w) (w_store w) (cfg_set cfg a "session_id" sid)
         (w_trace w ++ (if bool_decide (tok = "") then [] else [Posted probe]) ++
          (if truthy password then []
           else [Prompted ("azkaban password for " +:+ user1 +:+ ": ")]) ++
          [Posted login]),
       Ok (url1, sid)))).
Proof.
  intros Ha cfg.
  destruct (creds_alias_missing server gu tp url user password a w Ha) as [H1 H2].
  split; [exact H1|split; [exact H2|]].
  intros sec u0 Hs Hu. exact (creds_alias_login server gu tp url user password a w Ha sec u0 Hs Hu).
Qed.


Lemma main_noisy (on_build : hook) (archive_size : list (string * zsrc) -> string)
    (server : request -> reply) (gu tp tmp : string)
    (self : loc) (cmd : command) (w : world) :
  main on_build archive_size server gu tp tmp self false cmd w
  = (w, Err (NameError "global name 'get_formatted_stream_handler' is not defined")).
Proof. reflexivity. Qed.





Lemma hook_noop_grows : hook_grows hook_noop.
Proof. unfold hook_grows, hook_noop. intros ?????? [= <- <-]. auto. Qed.
Lemma hook_noop_keeps : hook_keeps_files hook_noop.
Proof. unfold hook_keeps_files, hook_noop. eauto. Qed.

(** C1, counterexample: a registered file that no longer exists on disk
    makes [build] fail with [OSError], not with the domain error, after the
    archive has been created. *)
Lemma build_vanished_file :
  let w1 := fst (add_file 0 "/data.csv" None
                   (world0 {[ "/data.csv" := RegularFile ]} (empty_project "p"))) in
  let w2 := World ∅ (w_store w1) (w_rc w1) (w_trace w1) in
  _files (w_store w2 0) = {[ "/data.csv" := None ]} /\
  snd (build hook_noop size0 0 "/out.zip" false w2)
  = Err (OSError "No such file or directory: '/data.csv'") /\
  exists_path (w_fs (fst (build hook_noop size0 0 "/out.zip" false w2))) "/out.zip" = true.
Proof. split; [reflexivity|split; reflexivity]. Qed.


(** C6, counterexample: an upload reply without [error] and without
    [projectId] raises [KeyError] instead of being returned. *)
Lemma upload_missing_field :
  snd (upload srv0 "me" "pw" 0 "/a.zip" (Some "http://h") None (Some "pw") None w_src)
  = Err (KeyError "projectId").
Proof. reflexivity. Qed.

(** Witness of C1: building the sample project with the no-op hook, where
    the file ['/a.txt'] is stored as ['a.txt']; and building after that file
    has vanished. *)
Lemma build_spec_witness :
  (exists w', build hook_noop size0 0 "/out.zip" false w_src = (w', Ok tt) /\
    w_fs w' = <[ "/out.zip" := ZipArchive
                 (job_entries (map_to_list (_jobs p_src)) ++
                  file_entries (map_to_list (_files p_src)))]> (w_fs w_src)) /\
  file_entries (map_to_list (_files p_src)) = [("a.txt", FromDisk "/a.txt")] /\
  (exists w' msg,
    build hook_noop size0 0 "/out.zip" false (world0 ∅ p_src) = (w', Err (OSError msg)) /\
    exists_path (w_fs w') "/out.zip" = true).
Proof.
  split; [|split; [reflexivity|]].
  - destruct (build_spec hook_noop size0 0 "/out.zip" false w_src) as (_ & _ & H).
    apply H.
    + apply hook_noop_keeps.
    + left. reflexivity.
    + left. apply map_non_empty_singleton.
    + intros f a Hf. cbn in Hf. apply lookup_singleton_Some in Hf as [<- <-]. reflexivity.
    + intros f a Hf. cbn in Hf. apply lookup_singleton_Some in Hf as [<- _]. reflexivity.
  - destruct (build_spec hook_noop size0 0 "/out.zip" false (world0 ∅ p_src)) as (_ & _ & H).
    apply H.
    + apply hook_noop_keeps.
    + left. reflexivity.
    + left. apply map_non_empty_singleton.
    + intros f a Hf. cbn in Hf. apply lookup_singleton_Some in Hf as [<- <-]. reflexivity.
    + exists "/a.txt", None. split; [reflexivity|]. split; [discriminate|reflexivity].
Defined.


(** Witness of C3: a relative path is refused. *)
Lemma add_file_errors_witness :
  isabs "a.txt" = false /\
  add_file 0 "a.txt" None w_a
  = (w_a, Err (AzkabanError ("relative path not allowed " +:+ repr "a.txt"))).
Proof.
  split; [reflexivity|].
  destruct (add_file_errors 0 "a.txt" None w_a) as (H & _).
  apply H. reflexivity.
Defined.

(** Witness of C4: adding a fresh job registers it. *)
Lemma add_job_registers_witness :
  _jobs (w_store w_a 0) !! "j" = None /\
  _jobs (set_jobs (<[ "j" := job0 ]> (_jobs (w_store w_a 0))) (w_store w_a 0)) !! "j"
  = Some job0.
Proof.
  split; [reflexivity|].
  destruct (add_job_registers hook_noop 0 "j" job0 w_a) as (_ & H).
  destruct (H ltac:(reflexivity)) as (_ & Hj & _). exact Hj.
Defined.

(** Witness of C5: merging the sample project into an empty one. *)
Lemma merge_into_copies_witness :
  hook_grows hook_noop /\
  merge_into hook_noop 0 1 w_src
  = (fst (merge_into hook_noop 0 1 w_src), snd (merge_into hook_noop 0 1 w_src)) /\
  _jobs (w_store (fst (merge_into hook_noop 0 1 w_src)) 1) !! "j" = Some job0.
Proof.
  split; [apply hook_noop_grows|]. split; [reflexivity|].
  destruct (merge_into_copies hook_noop 0 1 w_src
              (fst (merge_into hook_noop 0 1 w_src))
              (snd (merge_into hook_noop 0 1 w_src))
              hook_noop_grows ltac:(reflexivity)) as (H & _).
  destruct (H ltac:(reflexivity)) as (Hj & _). apply Hj. reflexivity.
Defined.

(** Witness of C7: logging in through an alias without a cached session id. *)
Lemma get_credentials_spec_witness :
  rc0 !! "prod" = Some {[ "url" := "http://h/" ]} /\
  _get_credentials srv0 "me" "pw" None None (Some "pw") (Some "prod") w_rc0
  = (World ∅ (w_store w_rc0) (cfg_set rc0 "prod" "session_id" "s1")
       [Posted (Request "http://h" [("action", "login"); ("username", "me");
                                    ("password", "pw")] None)],
     Ok ("http://h", "s1")).
Proof.
  split; [reflexivity|].
  destruct (get_credentials_spec srv0 "me" "pw" None None (Some "pw") "prod" w_rc0
              ltac:(discriminate)) as (_ & _ & H).
  destruct (H {[ "url" := "http://h/" ]} "http://h/" ltac:(reflexivity) ltac:(reflexivity))
    as (_ & H2).
  assert (Htok : cfg_get rc0 "prod" "session_id" = "") by reflexivity.
  apply (H2 (or_introl Htok) "" {[ "session.id" := "s1" ]} "s1"); reflexivity.
Defined.

(** Witness of C8: the request of a run. *)
Lemma upload_run_requests_witness :
  _get_credentials srv0 "me" "pw" (Some "http://h") None (Some "pw") None w_src
  = (fst (_get_credentials srv0 "me" "pw" (Some "http://h") None (Some "pw") None w_src),
     Ok ("http://h", "s1")) /\
  List.filter is_posted
    (w_trace (fst (run srv0 "me" "pw" 0 "f" (Some "http://h") None (Some "pw") None w_src)))
  = List.filter is_posted
      (w_trace (fst (_get_credentials srv0 "me" "pw" (Some "http://h") None (Some "pw")
                       None w_src))) ++
    [Posted (Request ("http://h" +:+ "/executor")
               [("ajax", "executeFlow"); ("session.id", "s1"); ("project", "p");
                ("flow", "f")] None)].
Proof.
  split; [reflexivity|].
  destruct (upload_run_requests srv0 "me" "pw" 0 (Some "http://h") None (Some "pw") None
              w_src (fst (_get_credentials srv0 "me" "pw" (Some "http://h") None
                           (Some "pw") None w_src))
              "http://h" "s1" ltac:(reflexivity)) as (_ & H).
  apply (H "f" _ (snd (run srv0 "me" "pw" 0 "f" (Some "http://h") None (Some "pw") None w_src))).
  reflexivity.
Defined.

(** Witness of C6: a run answered with an execution id. *)
Lemma upload_run_responses_witness :
  srv0 (Request ("http://h" +:+ "/executor")
          [("ajax", "executeFlow"); ("session.id", "s1"); ("project", "p");
           ("flow", "f")] None) = RAnswer "" (Some {[ "execid" := "7" ]}) /\
  snd (run srv0 "me" "pw" 0 "f" (Some "http://h") None (Some "pw") None w_src)
  = Ok {[ "execid" := "7" ]}.
Proof.
  split; [reflexivity|].
  destruct (upload_run_responses srv0 "me" "pw" 0 (Some "http://h") None (Some "pw") None
              w_src (fst (_get_credentials srv0 "me" "pw" (Some "http://h") None
                           (Some "pw") None w_src))
              "http://h" "s1" ltac:(reflexivity)) as (_ & H).
  destruct (H "f" "" (Some {[ "execid" := "7" ]}) ltac:(reflexivity)) as (_ & H2).
  destruct (H2 _ eq_refl) as (_ & H3 & _).
  apply H3; [reflexivity | eexists; reflexivity].
Defined.

(** Witness of C9: adding an existing file twice, the second time with an empty disk. *)
Lemma add_file_idempotent_witness :
  add_file 0 "/a.txt" None w_a = (fst (add_file 0 "/a.txt" None w_a), Ok tt) /\
  add_file 0 "/a.txt" None
    (World ∅ (w_store (fst (add_file 0 "/a.txt" None w_a)))
       (w_rc (fst (add_file 0 "/a.txt" None w_a)))
       (w_trace (fst (add_file 0 "/a.txt" None w_a))))
  = (World ∅ (w_store (fst (add_file 0 "/a.txt" None w_a)))
       (w_rc (fst (add_file 0 "/a.txt" None w_a)))
       (w_trace (fst (add_file 0 "/a.txt" None w_a))), Ok tt).
Proof.
  split; [reflexivity|].
  apply (add_file_idempotent 0 "/a.txt" None w_a). reflexivity.
Defined.

(** Witness of C10: merging the sample project leaves it unchanged. *)
Lemma merge_into_frame_witness :
  merge_into hook_noop 0 1 w_src
  = (fst (merge_into hook_noop 0 1 w_src), snd (merge_into hook_noop 0 1 w_src)) /\
  w_store (fst (merge_into hook_noop 0 1 w_src)) 0 = w_store w_src 0.
Proof.
  split; [reflexivity|].
  destruct (merge_into_frame hook_noop 0 1 w_src
              (fst (merge_into hook_noop 0 1 w_src))
              (snd (merge_into hook_noop 0 1 w_src)) ltac:(reflexivity)) as (H & _).
  exact H.
Defined.

(** ** Further properties of the code *)

Lemma rev_string_app a b : rev_string (a +:+ b) = rev_string b +:+ rev_string a.
Proof.
  induction a as [|x a IH].
  - cbn [rev_string]. by rewrite str_app_nil.
  - rewrite str_app_cons. cbn [rev_string]. by rewrite IH, str_app_assoc.
Qed.

Lemma rev_string_involutive s : rev_string (rev_string s) = s.
Proof.
  induction s as [|x s IH]; [done|]. cbn [rev_string].
  rewrite rev_string_app, IH. done.
Qed.

Lemma lstrip_slash_spec s :
  exists k, s = slashes k +:+ lstrip_slash s /\
    forall t, lstrip_slash s <> String "/"%char t.
Proof.
  induction s as [|c s IH].
  - exists 0. split; [done|]. intros t. discriminate.
  - destruct (decide (c = "/"%char)) as [->|Hc].
    + destruct IH as (k & Hk & Hn). exists (S k). cbn [slashes lstrip_slash].
      rewrite str_app_cons, <- Hk. done.
    + assert (E : lstrip_slash (String c s) = String c s).
      { cbn. repeat (case_match; try done). }
      rewrite E. exists 0. split; [done|]. intros t [= ->]. done.
Qed.

Lemma rev_slashes k : rev_string (slashes k) = slashes k.
Proof.
  induction k as [|k IH]; [done|]. cbn [slashes rev_string]. rewrite IH.
  clear IH. induction k as [|k IH]; [done|]. cbn [slashes].
  by rewrite str_app_cons, IH.
Qed.

Lemma rstrip_slash_props s :
  (exists k, s = rstrip_slash s +:+ slashes k) /\
  (forall t, rstrip_slash s <> t +:+ "/") /\
  rstrip_slash (rstrip_slash s) = rstrip_slash s /\
  ((forall t, s <> t +:+ "/") -> rstrip_slash s = s).
Proof.
  unfold rstrip_slash.
  destruct (lstrip_slash_spec (rev_string s)) as (k & Hk & Hn).
  assert (Hno : forall t, rev_string (lstrip_slash (rev_string s)) <> t +:+ "/").
  { intros t Ht. apply (f_equal rev_string) in Ht.
    rewrite rev_string_involutive, rev_string_app in Ht. cbn in Ht. eapply Hn, Ht. }
  split; [|split; [exact Hno|split]].
  - exists k. rewrite <- (rev_string_involutive s) at 1. rewrite Hk at 1.
    by rewrite rev_string_app, rev_slashes.
  - rewrite rev_string_involutive.
    destruct (lstrip_slash_spec (lstrip_slash (rev_string s))) as (k' & Hk' & _).
    destruct k' as [|k'].
    + cbn [slashes] in Hk'. rewrite str_nil_app in Hk'. by rewrite <- Hk'.
    + exfalso. cbn [slashes] in Hk'. rewrite str_app_cons in Hk'. eapply Hn. exact Hk'.
  - intros Hs. destruct k as [|k].
    + cbn [slashes] in Hk. rewrite str_nil_app in Hk. rewrite <- Hk.
      apply rev_string_involutive.
    + exfalso. cbn [slashes] in Hk. rewrite str_app_cons in Hk.
      apply (f_equal rev_string) in Hk.
      rewrite rev_string_involutive in Hk. cbn [rev_string] in Hk.
      eapply Hs. exact Hk.
Qed.

(** X1: [url.rstrip('/')] removes exactly the trailing slashes: the input is the result followed by some slashes, the result never ends in a slash, stripping twice is stripping once, and a string without a trailing slash is kept. *)
Theorem rstrip_slash_spec s :
  (exists k, s = rstrip_slash s +:+ slashes k) /\
  (forall t, rstrip_slash s <> t +:+ "/") /\
  rstrip_slash (rstrip_slash s) = rstrip_slash s /\
  ((forall t, s <> t +:+ "/") -> rstrip_slash s = s).
Proof. exact (rstrip_slash_props s). Qed.

Lemma returns_bind {A B} (P : B -> Prop) (m : M A) (k : A -> M B) :
  (forall a, returns P (k a)) -> returns P (m ≫= k).
Proof.
  intros Hk w w' b. rewrite bind_unfold. destruct (m w) as [w1 [a|e]].
  - apply Hk.
  - discriminate.
Qed.

Lemma returns_ret {A} (P : A -> Prop) a : P a -> returns P (mret a).
Proof. intros H w w' b [= _ <-]. done. Qed.

Lemma returns_raise {A} (P : A -> Prop) e : returns P (raise e).
Proof. intros w w' b [=]. Qed.

Ltac solve_returns :=
  repeat first
    [ apply returns_bind; intros ?
    | apply returns_raise
    | apply returns_ret
    | case_match ].

Lemma resolve_alias_url (url user alias : option string) (w w1 : world)
    (u0 : string) (user0 sid0 : option string) (cfg : config) :
  resolve_alias url user alias w = (w1, Ok (u0, user0, sid0, cfg)) ->
  u0 = (if truthy alias then cfg_get (w_rc w) (default "" alias) "url"
        else default "" url).
Proof.
  unfold resolve_alias. unfold_m.
  destruct (truthy alias); [|destruct (truthy url)]; cbn;
    repeat case_match; intros E; inversion E; reflexivity.
Qed.

(** X2: the URL that [_get_credentials] returns is the result of [rstrip('/')] applied to the alias section's [url] option when an alias is given, and to the [url] argument otherwise; it never ends in a slash. *)
Theorem get_credentials_url (server : request -> reply) (gu tp : string)
    (url user password alias : option string) (w w' : world) (u sid : string) :
  _get_credentials server gu tp url user password alias w = (w', Ok (u, sid)) ->
  u = rstrip_slash (if truthy alias then cfg_get (w_rc w) (default "" alias) "url"
                    else default "" url) /\
  (forall t, u <> t +:+ "/").
Proof.
  unfold _get_credentials. rewrite bind_unfold.
  destruct (resolve_alias url user alias w) as [w0 [[[[u0 user0] sid0] cfg]|e]] eqn:E;
    [|intros [=]].
  apply resolve_alias_url in E as <-. cbv beta iota.
  match goal with
  | |- ?m w0 = _ -> _ =>
      assert (R : returns (fun a : string * string => a.1 = rstrip_slash u0) m)
        by (solve_returns; reflexivity)
  end.
  intros H. pose proof (R w0 w' (u, sid) H) as Hu. cbn in Hu.
  split; [done|]. rewrite Hu. apply rstrip_slash_props.
Qed.

Global Instance trace_grows_preorder P : PreOrder (trace_grows P).
Proof.
  split.
  - intros w. exists []. by rewrite app_nil_r.
  - intros w1 w2 w3 (e1 & H1 & F1) (e2 & H2 & F2). exists (e1 ++ e2).
    rewrite H2, H1, app_assoc. split; [done|]. by apply Forall_app.
Qed.

Lemma tg_emit (P : event -> Prop) ev : P ev -> preserves (trace_grows P) (emit ev).
Proof. intros H w w' r [= <- _]. exists [ev]. cbn. auto. Qed.

Lemma tg_post (P : event -> Prop) server rq :
  P (Posted rq) -> preserves (trace_grows P) (post server rq).
Proof.
  intros H. unfold post. apply (pres_bind (trace_grows P)); [by apply tg_emit|].
  intros _. destruct (server rq);
    [apply (pres_raise (trace_grows P))|apply (pres_ret (trace_grows P))].
Qed.

Lemma tg_set_rc (P : event -> Prop) c : preserves (trace_grows P) (set_rc c).
Proof. intros w w' r [= <- _]. exists []. cbn. by rewrite app_nil_r. Qed.

Ltac solve_tg P :=
  repeat first
    [ apply (pres_bind (trace_grows P)); [|intros ?]
    | apply (pres_catch (trace_grows P)); [|intros ?]
    | apply (pres_ret (trace_grows P))
    | apply (pres_raise (trace_grows P))
    | apply (pres_get_fs (trace_grows P))
    | apply (pres_get_rc (trace_grows P))
    | apply (pres_get_project (trace_grows P))
    | apply tg_emit; done
    | apply tg_post; done
    | apply tg_set_rc
    | progress unfold upload, run, _get_credentials, resolve_alias, needs_login,
        req_json, getitem, wrap_request_error
    | case_match ].

(** X3: when a non-empty password is supplied, [_get_credentials], [upload] and [run] never prompt: the trace only gains events other than [Prompted]. *)
Theorem no_prompt_with_password (server : request -> reply) (gu tp : string)
    (self : loc) (archive flow : string) (url user password alias : option string) :
  truthy password = true ->
  let P := fun ev => is_prompt ev = false in
  preserves (trace_grows P) (_get_credentials server gu tp url user password alias) /\
  preserves (trace_grows P) (upload server gu tp self archive url user password alias) /\
  preserves (trace_grows P) (run server gu tp self flow url user password alias).
Proof.
  intros Hpw P.
  split; [|split]; solve_tg P; congruence.
Qed.

Global Instance disk_only_at_preorder q : PreOrder (disk_only_at q).
Proof.
  split.
  - intros w. split; [done|split; [done|reflexivity]].
  - intros w1 w2 w3 (A1 & B1 & C1) (A2 & B2 & C2). split; [|split].
    + intros q' Hq. rewrite A2, A1; done.
    + congruence.
    + etransitivity; eauto.
Qed.

Global Instance fs_keep_preorder q : PreOrder (fs_keep q).
Proof.
  split.
  - intros w q' _. done.
  - intros w1 w2 w3 H1 H2 q' Hq. rewrite H2, H1; done.
Qed.

Lemma disk_only_at_fs q w fs st :
  (forall q', q' <> q -> fs !! q' = w_fs w !! q') ->
  disk_only_at q w (World fs st (w_rc w) (w_trace w)).
Proof. intros H. split; [exact H|split; [done|]]. exists []. cbn. by rewrite app_nil_r. Qed.

Lemma zip_open_at path : preserves (disk_only_at path) (zip_open path).
Proof.
  intros w w' r. unfold zip_open. unfold_m. cbn. intros [= <- _].
  apply disk_only_at_fs. intros q' Hq. cbn. by rewrite lookup_insert_ne.
Qed.

Lemma zip_write_at path a src : preserves (disk_only_at path) (zip_write path a src).
Proof.
  unfold zip_write. case_match; [apply (pres_raise (disk_only_at path))|].
  intros w w' r. unfold_m. cbn. intros [= <- _].
  apply disk_only_at_fs. intros q' Hq. cbn. by rewrite lookup_insert_ne.
Qed.

Lemma zip_write_file_at path f a : preserves (disk_only_at path) (zip_write_file path f a).
Proof.
  unfold zip_write_file. apply (pres_bind (disk_only_at path)); [apply (pres_get_fs (disk_only_at path))|].
  intros fs. case_match; [apply zip_write_at|apply (pres_raise (disk_only_at path))].
Qed.

Lemma call_hook_at q h self j n : preserves (disk_only_at q) (call_hook h self j n).
Proof.
  intros w w' r H. apply call_hook_frame in H as [(_ & Hfs & Hrc & Htr) _].
  split; [|split; [done|]].
  - intros q' _. by rewrite Hfs.
  - exists []. by rewrite Htr, app_nil_r.
Qed.

Lemma built_log_at q size :
  preserves (disk_only_at q)
    (emit (LogInfo ("project successfully built (size: " +:+ size +:+ ")"))).
Proof.
  intros w w' r. unfold_m. intros [= <- _]. split; [done|split; [done|]].
  exists [LogInfo ("project successfully built (size: " +:+ size +:+ ")")].
  split; [done|]. constructor; [by eexists|constructor].
Qed.

Lemma for_each_pres {A} (R : world -> world -> Prop) `{!PreOrder R}
    (xs : list A) (f : A -> M unit) :
  (forall x, preserves R (f x)) -> preserves R (for_each xs f).
Proof.
  intros Hf. induction xs as [|x xs IH]; cbn.
  - apply (pres_ret R).
  - apply (pres_bind R); [apply Hf|]. intros _. apply IH.
Qed.

Lemma build_at (on_build : hook) (archive_size : list (string * zsrc) -> string)
    (self : loc) (path : string) (overwrite : bool) :
  preserves (disk_only_at path) (build on_build archive_size self path overwrite).
Proof.
  unfold build. set (R := disk_only_at path).
  apply (pres_bind R); [apply (pres_get_fs (disk_only_at path))|]. intros fs.
  case_match; [apply (pres_raise R)|].
  apply (pres_bind R); [apply (pres_get_project R)|]. intros p.
  case_match; [apply (pres_raise R)|].
  apply (pres_bind R); [apply zip_open_at|]. intros _.
  apply (pres_bind R).
  - apply for_each_pres; [typeclasses eauto|]. intros [n j].
    apply (pres_bind R); [apply call_hook_at|]. intros _. apply zip_write_at.
  - intros _. apply (pres_bind R); [apply (pres_get_project R)|]. intros p'.
    apply (pres_bind R).
    + apply for_each_pres; [typeclasses eauto|]. intros [f a]. apply zip_write_file_at.
    + intros _. apply (pres_bind R); [apply (pres_get_fs R)|]. intros fs'.
      apply built_log_at.
Qed.


Lemma upload_run_io_only (server : request -> reply) (gu tp : string) (self : loc)
    (archive flow : string) (url user password alias : option string) :
  preserves io_only (upload server gu tp self archive url user password alias) /\
  preserves io_only (run server gu tp self flow url user password alias).
Proof. split; unfold upload, run; solve_pres io_only. Qed.



Lemma io_fs_keep q w w' : io_only w w' -> fs_keep q w w'.
Proof. intros [Hfs _] q' _. by rewrite Hfs. Qed.

Lemma disk_fs_keep q w w' : disk_only_at q w w' -> fs_keep q w w'.
Proof. by intros [H _]. Qed.

Lemma with_temppath_disk {A} tmp (k : string -> M A) w w' r :
  preserves (fs_keep tmp) (k tmp) ->
  with_temppath tmp k w = (w', r) ->
  w_fs w' = delete tmp (w_fs w).
Proof.
  intros Hk. unfold with_temppath, finally. unfold_m. cbn.
  destruct (k tmp _) as [w1 r1] eqn:E. cbn.
  apply Hk in E. cbn in E. intros [= <- _]. cbn.
  apply map_eq. intros q. destruct (decide (q = tmp)) as [->|Hq].
  - by rewrite !lookup_delete_eq.
  - rewrite !lookup_delete_ne by done. rewrite E by done. cbn.
    by rewrite lookup_delete_ne.
Qed.

Lemma pres_mono (R S : world -> world -> Prop) {A} (m : M A) :
  (forall w w', R w w' -> S w w') -> preserves R m -> preserves S m.
Proof. intros HRS Hm w w' r E. apply HRS. eapply Hm; eauto. Qed.

(** X6: the disk (apart from [~/.azkabanrc]) after [main]: with [--quiet], [build] changes at most its destination path, [upload] without [--zip] leaves the disk as it was except that the temporary path is removed, and every other command leaves the disk unchanged; without [--quiet], [main] raises before any command and changes nothing. *)
Theorem main_disk (on_build : hook) (archive_size : list (string * zsrc) -> string)
    (server : request -> reply) (gu tp tmp : string)
    (self : loc) (quiet : bool) (cmd : command) (w w' : world) r :
  main on_build archive_size server gu tp tmp self quiet cmd w = (w', r) ->
  if quiet then
    match cmd with
    | CmdBuild path _ => forall q, q <> path -> w_fs w' !! q = w_fs w !! q
    | CmdUpload zip _ _ _ =>
        w_fs w' = if truthy zip then w_fs w else delete tmp (w_fs w)
    | _ => w_fs w' = w_fs w
    end
  else w' = w.
Proof.
  destruct quiet; [|rewrite main_noisy; by intros [= <- _]].
  unfold main, catch. rewrite bind_unfold. cbn.
  destruct (main_body on_build archive_size server gu tp tmp self cmd w) as [w1 r1] eqn:E.
  intros H.
  assert (Hw : w_fs w' = w_fs w1).
  { destruct r1 as [a|e]; [by injection H as <-|].
    destruct e; unfold_m; cbn in H; by injection H as <-. }
  rewrite Hw. clear H Hw.
  destruct cmd as [path ow|zip url user alias|flow url user alias|jn]; cbn in E.
  - apply build_at in E as [E _]. exact E.
  - destruct (truthy zip).
    + assert (Hio : preserves io_only
                      (upload server gu tp self (default "" zip) url user None alias ;;
                       mret tt)).
      { apply (pres_bind io_only);
          [exact (proj1 (upload_run_io_only server gu tp self _ "" url user None alias))|].
        intros _.
        apply (pres_ret io_only). }
      apply Hio in E as [E _]. exact E.
    + eapply with_temppath_disk; [|exact E].
      apply (pres_bind (fs_keep tmp)).
      * eapply pres_mono; [apply disk_fs_keep|apply build_at].
      * intros _. apply (pres_bind (fs_keep tmp)).
        -- eapply pres_mono; [apply io_fs_keep|].
           exact (proj1 (upload_run_io_only server gu tp self _ "" url user None alias)).
        -- intros _. apply (pres_ret (fs_keep tmp)).
  - assert (Hio : preserves io_only
                    (run server gu tp self flow url user None alias ;; mret tt)).
    { apply (pres_bind io_only);
        [exact (proj2 (upload_run_io_only server gu tp self "" flow url user None alias))|].
      intros _.
      apply (pres_ret io_only). }
    apply Hio in E as [E _]. exact E.
  - revert E. unfold_m. cbn. case_match; intros [= <- _]; done.
Qed.

Lemma creds_alias_cache (server : request -> reply) (gu tp : string)
    (url user password : option string) (a : string) (w w1 : world) (u sid : string) :
  a <> "" ->
  _get_credentials server gu tp url user password (Some a) w = (w1, Ok (u, sid)) ->
  exists sec u0,
    w_rc w !! a = Some sec /\ sec !! "url" = Some u0 /\ u = rstrip_slash u0 /\
    w_rc w1 = <[a := <["session_id" := sid]> sec]> (w_rc w).
Proof.
  intros Ha. unfold_remote. cbn -[cfg_get rstrip_slash py_or].
  rewrite (bool_decide_false _ Ha). cbn -[cfg_get rstrip_slash py_or].
  unfold has_section, has_option.
  destruct (w_rc w !! a) as [sec|] eqn:Hs; cbn -[cfg_get rstrip_slash py_or];
    [|discriminate].
  destruct (sec !! "url") as [u0|] eqn:Hu; cbn -[cfg_get rstrip_slash py_or];
    [|discriminate].
  assert (Hurl : cfg_get (w_rc w) a "url" = u0) by (eapply cfg_get_some; eauto).
  rewrite Hurl. intros Hrun. exists sec, u0.
  repeat (case_match; cbn -[cfg_get rstrip_slash py_or] in Hrun); simplify_eq;
    (split; [done|split; [done|split; [done|]]]); cbn; rewrite ?Hs; try reflexivity.
  assert (Htok : sec !! "session_id" = Some (cfg_get (w_rc w) a "session_id")).
  { revert H2. unfold cfg_get. rewrite Hs. cbn.
    destruct (sec !! "session_id"); [done|]. vm_compute. discriminate. }
  symmetry. apply insert_id. rewrite Hs. f_equal. symmetry. by apply insert_id.
Qed.

(** X7: a successful [_get_credentials] call with a non-empty alias read the alias section and its url from the configuration, returns that url stripped of trailing slashes, and leaves the configuration with the returned session id stored in the alias section. *)
Theorem get_credentials_cache (server : request -> reply) (gu tp : string)
    (url user password : option string) (a : string) (w w1 : world) (u sid : string) :
  a <> "" ->
  _get_credentials server gu tp url user password (Some a) w = (w1, Ok (u, sid)) ->
  exists sec u0,
    w_rc w !! a = Some sec /\ sec !! "url" = Some u0 /\ u = rstrip_slash u0 /\
    w_rc w1 = <[a := <["session_id" := sid]> sec]> (w_rc w).
Proof. apply creds_alias_cache. Qed.

(** X8: after a successful alias login, a second call with the same alias reuses the cached session id when the server's probe answers with an empty body: it posts only the probe and returns the same url and session id. *)
Theorem get_credentials_reuse (server : request -> reply) (gu tp : string)
    (url user password url' user' password' : option string) (a : string)
    (w w1 : world) (u sid : string) (j : option jobj) :
  a <> "" ->
  _get_credentials server gu tp url user password (Some a) w = (w1, Ok (u, sid)) ->
  sid <> "" ->
  server (Request (u +:+ "/manager") [("session.id", sid)] None) = RAnswer "" j ->
  _get_credentials server gu tp url' user' password' (Some a) w1
  = (World (w_fs w1) (w_store w1) (w_rc w1)
       (w_trace w1 ++ [Posted (Request (u +:+ "/manager") [("session.id", sid)] None)]),
     Ok (u, sid)).
Proof.
  intros Ha H Hsid Hp.
  destruct (creds_alias_cache _ _ _ _ _ _ _ _ _ _ _ Ha H) as (sec & u0 & Hs & Hu & -> & Hrc).
  assert (Hs1 : w_rc w1 !! a = Some (<["session_id" := sid]> sec))
    by (rewrite Hrc; apply lookup_insert_eq).
  assert (Hu1 : <["session_id" := sid]> sec !! "url" = Some u0)
    by (rewrite lookup_insert_ne; done).
  assert (Htok : cfg_get (w_rc w1) a "session_id" = sid)
    by (eapply cfg_get_some; [exact Hs1|apply lookup_insert_eq]).
  destruct (creds_alias_login server gu tp url' user' password' a w1 Ha _ u0 Hs1 Hu1)
    as [H1 _].
  cbv zeta in H1. rewrite Htok in H1. exact (H1 Hsid j Hp).
Qed.

(** X9: without an alias and with a non-empty url, [_get_credentials] logs in at the stripped url (prompting first when no password is given): a login answer with an [error] field raises it, and otherwise the answer's [session.id] is returned with the stripped url; the configuration is left unchanged. *)
Theorem get_credentials_url_login (server : request -> reply) (gu tp : string)
    (u : string) (user password alias : option string) (w : world) :
  u <> "" -> truthy alias = false ->
  let url1 := rstrip_slash u in
  let user1 := py_or user gu in
  let login := Request url1 [("action", "login"); ("username", user1);
                             ("password", py_or password tp)] None in
  let w1 := World (w_fs w) (w_store w) (w_rc w)
              (w_trace w ++
               (if truthy password then []
                else [Prompted ("azkaban password for " +:+ user1 +:+ ": ")]) ++
               [Posted login]) in
  forall t res,
  server login = RAnswer t (Some res) ->
  (forall m, res !! "error" = Some m ->
   _get_credentials server gu tp (Some u) user password alias w
   = (w1, Err (AzkabanError m))) /\
  (res !! "error" = None -> forall sid, res !! "session.id" = Some sid ->
   _get_credentials server gu tp (Some u) user password alias w
   = (w1, Ok (url1, sid))).
Proof.
  intros Hu Ha url1 user1 login w1 t res Hl. subst url1 user1 login w1.
  assert (Hpw : py_or password tp = if truthy password then default "" password else tp).
  { destruct password as [p|]; cbn; [|done].
    by destruct (negb (bool_decide (p = ""))). }
  rewrite Hpw in Hl |- *.
  unfold_remote. cbn -[rstrip_slash py_or]. rewrite Ha.
  cbn -[rstrip_slash py_or]. rewrite (bool_decide_false _ Hu).
  cbn -[rstrip_slash py_or].
  split.
  - intros m Hm. destruct (truthy password); cbn -[rstrip_slash py_or];
      rewrite Hl; cbn -[rstrip_slash py_or]; rewrite Hm;
      rewrite <- ?app_assoc; reflexivity.
  - intros He sid Hs. destruct (truthy password); cbn -[rstrip_slash py_or];
      rewrite Hl; cbn -[rstrip_slash py_or]; rewrite He, Hs; cbn -[rstrip_slash py_or];
      rewrite ?Ha; rewrite <- ?app_assoc; reflexivity.
Qed.

(** X10: when the archive file does not exist, [upload] raises the domain error about the missing archive once credentials are resolved, and sends no upload request. *)
Theorem upload_missing_archive (server : request -> reply) (gu tp : string)
    (self : loc) (archive : string) (url user password alias : option string)
    (w w1 : world) (u sid : string) :
  _get_credentials server gu tp url user password alias w = (w1, Ok (u, sid)) ->
  exists_path (w_fs w) archive = false ->
  upload server gu tp self archive url user password alias w
  = (w1, Err (AzkabanError ("unable to find archive at " +:+ repr archive))).
Proof.
  intros Hc Hex. destruct (get_credentials_io _ _ _ _ _ _ _ _ _ _ Hc) as [Hfs _].
  unfold upload. rewrite bind_unfold, Hc.
  unfold post, req_json, getitem, wrap_request_error. unfold_m. cbn.
  rewrite Hfs, Hex. reflexivity.
Qed.

Lemma add_file_ok_store (self : loc) (path : string) (ap : option string) (w w' : world) :
  add_file self path ap w = (w', Ok tt) ->
  isabs path = true /\
  w_store w' self = set_files (<[path := ap]> (_files (w_store w self))) (w_store w self) /\
  (forall l, l <> self -> w_store w' l = w_store w l) /\
  w_fs w' = w_fs w /\ w_rc w' = w_rc w /\ w_trace w' = w_trace w.
Proof.
  unfold add_file. unfold_m. cbn.
  destruct (isabs path) eqn:Habs; cbn; [|discriminate].
  destruct (_files (w_store w self) !! path) as [a|] eqn:Hf.
  - case_bool_decide; [|discriminate]. intros [= <-]. subst.
    split; [done|]. split; [|done].
    rewrite insert_id by done. by destruct (w_store w self).
  - destruct (exists_path (w_fs w) path); cbn; [|discriminate].
    intros [= <-]. cbn. rewrite upd_store_eq.
    split; [done|]. split; [done|]. split; [|done].
    intros l Hl. by rewrite upd_store_ne.
Qed.

Lemma add_file_succeeds (self : loc) (path : string) (ap : option string) (w : world) :
  isabs path = true ->
  (_files (w_store w self) !! path = Some ap \/
   (_files (w_store w self) !! path = None /\ exists_path (w_fs w) path = true)) ->
  exists w1, add_file self path ap w = (w1, Ok tt).
Proof.
  intros Habs Hc. unfold add_file. unfold_m. cbn. rewrite Habs. cbn.
  destruct Hc as [Hf | [Hf He]]; rewrite Hf.
  - rewrite bool_decide_true by done. eauto.
  - rewrite He. cbn. eauto.
Qed.


(** X12: with a hook that keeps the registered jobs, adding a job under a name that was just successfully added raises the duplicate job name error and changes nothing. *)
Theorem add_job_twice (on_add : hook) (self : loc) (n : string) (j j' : job) (w w1 : world) :
  (forall fs j0 p n0 p' r, on_add fs j0 p n0 = (p', r) -> _jobs p ⊆ _jobs p') ->
  add_job on_add self n j w = (w1, Ok tt) ->
  add_job on_add self n j' w1
  = (w1, Err (AzkabanError ("duplicate job name " +:+ repr n))).
Proof.
  intros Hk H.
  assert (Hj : is_Some (_jobs (w_store w1 self) !! n)).
  { revert H. unfold add_job. unfold_m. cbn.
    destruct (_jobs (w_store w self) !! n) eqn:Hn; [intros [=]|].
    intros H. apply call_hook_frame in H as [_ (p' & Hh & Hst)].
    cbn in Hh. rewrite upd_store_eq in Hh. apply Hk in Hh. cbn in Hh.
    rewrite Hst. exists j. eapply lookup_weaken; [|exact Hh]. by rewrite lookup_insert_eq. }
  destruct Hj as [j0 Hj]. unfold add_job. unfold_m. cbn. by rewrite Hj.
Qed.

Lemma for_each_noop {A} (xs : list A) f w :
  (forall x, x ∈ xs -> f x w = (w, Ok tt)) -> for_each xs f w = (w, Ok tt).
Proof.
  induction xs as [|x xs IH]; intros H; [done|].
  rewrite for_each_cons, (H x ltac:(left)). apply IH.
  intros y Hy. apply H. by right.
Qed.

(** X13: merging a project into itself raises the duplicate job error on one of its jobs, with nothing changed, when it has jobs; and succeeds without change when it has none and all its files are absolute. *)
Theorem merge_into_self (on_add : hook) (l : loc) (w : world) :
  (_jobs (w_store w l) <> ∅ ->
   exists n, is_Some (_jobs (w_store w l) !! n) /\
     merge_into on_add l l w
     = (w, Err (AzkabanError ("duplicate job name " +:+ repr n)))) /\
  (_jobs (w_store w l) = ∅ ->
   (forall f a, _files (w_store w l) !! f = Some a -> isabs f = true) ->
   merge_into on_add l l w = (w, Ok tt)).
Proof.
  rewrite merge_into_steps. unfold merge_steps. split.
  - intros Hne.
    destruct (map_to_list (_jobs (w_store w l))) as [|[n j] rest] eqn:E.
    + by apply map_to_list_empty_iff in E.
    + assert (Hn : _jobs (w_store w l) !! n = Some j).
      { apply elem_of_map_to_list. rewrite E. left. }
      exists n. split; [by eexists|].
      cbn [map app]. rewrite for_each_cons. cbn.
      unfold add_job. unfold_m. cbn. by rewrite Hn.
  - intros Hj Habs. rewrite Hj, map_to_list_empty. cbn [map app].
    apply for_each_noop. intros x Hx.
    apply list_elem_of_In, in_map_iff in Hx as ([f a] & <- & Hin).
    apply list_elem_of_In, elem_of_map_to_list in Hin. cbn.
    destruct (add_file_cases l f a w) as (_ & _ & _ & H4). apply H4; [|done].
    by eapply Habs.
Qed.

Lemma set_jobs_set_jobs a b p : set_jobs a (set_jobs b p) = set_jobs a p.
Proof. by destruct p. Qed.

Lemma set_files_set_files a b p : set_files a (set_files b p) = set_files a p.
Proof. by destruct p. Qed.

Lemma union_insert_step {A} (L J : gmap string A) n x :
  L !! n = None -> <[n := x]> L ∪ J = L ∪ <[n := x]> J.
Proof. intros HL. rewrite <- insert_union_l. by apply insert_union_r. Qed.

Lemma merge_jobs_loop (on_add : hook) (tgt : loc)
    (Hid : forall fs j p n, on_add fs j p n = (p, Ok tt))
    (xs : list (string * job)) :
  NoDup xs.*1 ->
  forall w, (forall n j, (n, j) ∈ xs -> _jobs (w_store w tgt) !! n = None) ->
  exists w', for_each xs (fun '(n, j) => add_job on_add tgt n j) w = (w', Ok tt) /\
    w_store w' tgt
    = set_jobs (list_to_map xs ∪ _jobs (w_store w tgt)) (w_store w tgt) /\
    (forall l, l <> tgt -> w_store w' l = w_store w l) /\
    w_fs w' = w_fs w /\ w_rc w' = w_rc w /\ w_trace w' = w_trace w.
Proof.
  induction xs as [|[n j] xs IH]; intros Hnd w Hpre.
  - exists w. split; [done|]. split; [|done]. cbn. rewrite map_empty_union. by destruct (w_store w tgt).
  - cbn in Hnd. apply NoDup_cons in Hnd as [Hn Hnd].
    rewrite for_each_cons. cbv beta iota.
    assert (Hnone : _jobs (w_store w tgt) !! n = None) by (eapply Hpre; left).
    set (p1 := set_jobs (<[n := j]> (_jobs (w_store w tgt))) (w_store w tgt)).
    set (w1 := World (w_fs w) (upd_store tgt p1 (w_store w)) (w_rc w) (w_trace w)).
    assert (Hstep : add_job on_add tgt n j w
                    = (World (w_fs w) (upd_store tgt p1 (w_store w1)) (w_rc w) (w_trace w), Ok tt)).
    { unfold add_job. unfold_m. cbn. rewrite Hnone. cbn.
      unfold call_hook. cbn. rewrite upd_store_eq, Hid. reflexivity. }
    rewrite Hstep.
    set (w2 := World (w_fs w) (upd_store tgt p1 (w_store w1)) (w_rc w) (w_trace w)).
    assert (Hw2t : w_store w2 tgt = p1) by (cbn; apply upd_store_eq).
    assert (Hw2l : forall l, l <> tgt -> w_store w2 l = w_store w l).
    { intros l Hl. cbn. rewrite !upd_store_ne by done. done. }
    destruct (IH Hnd w2) as (w' & Hrun & Ht & Hl & Hfs & Hrc & Htr).
    { intros n' j' Hin. rewrite Hw2t. subst p1. cbn.
      rewrite lookup_insert_ne.
      - eapply Hpre. by right.
      - intros Heq. apply Hn. apply list_elem_of_fmap. exists (n', j').
        split; [cbn; congruence | done]. }
    exists w'. split; [exact Hrun|]. split; [|split; [|done]].
    + rewrite Ht, Hw2t. subst p1. cbn [_jobs set_jobs]. rewrite set_jobs_set_jobs.
      rewrite list_to_map_cons, union_insert_step; [done|].
      by apply not_elem_of_list_to_map.
    + intros l Hne. by rewrite Hl, Hw2l.
Qed.

Lemma merge_files_loop (tgt : loc) (xs : list (string * option string)) :
  NoDup xs.*1 ->
  forall w, (forall f a, (f, a) ∈ xs -> isabs f = true /\
              (_files (w_store w tgt) !! f = Some a \/
               (_files (w_store w tgt) !! f = None /\ exists_path (w_fs w) f = true))) ->
  exists w', for_each xs (fun '(f, a) => add_file tgt f a) w = (w', Ok tt) /\
    w_store w' tgt
    = set_files (list_to_map xs ∪ _files (w_store w tgt)) (w_store w tgt) /\
    (forall l, l <> tgt -> w_store w' l = w_store w l) /\
    w_fs w' = w_fs w /\ w_rc w' = w_rc w /\ w_trace w' = w_trace w.
Proof.
  induction xs as [|[f a] xs IH]; intros Hnd w Hpre.
  - exists w. split; [done|]. split; [|done]. cbn. rewrite map_empty_union. by destruct (w_store w tgt).
  - cbn in Hnd. apply NoDup_cons in Hnd as [Hn Hnd].
    rewrite for_each_cons. cbv beta iota.
    destruct (Hpre f a ltac:(left)) as [Habs Hc].
    destruct (add_file_succeeds tgt f a w Habs Hc) as [w1 Hw1].
    rewrite Hw1.
    destruct (add_file_ok_store _ _ _ _ _ Hw1) as (_ & Ht1 & Hl1 & Hfs1 & Hrc1 & Htr1).
    destruct (IH Hnd w1) as (w' & Hrun & Ht & Hl & Hfs & Hrc & Htr).
    { intros f' a' Hin. destruct (Hpre f' a' ltac:(by right)) as [Habs' Hc'].
      split; [done|]. rewrite Ht1, Hfs1. cbn.
      rewrite lookup_insert_ne; [done|].
      intros Heq. apply Hn. apply list_elem_of_fmap. exists (f', a').
      split; [cbn; congruence | done]. }
    exists w'. split; [exact Hrun|]. split; [|split; [|split; [congruence|split; congruence]]].
    + rewrite Ht, Ht1. cbn [_files set_files]. rewrite set_files_set_files.
      rewrite list_to_map_cons, union_insert_step; [done|].
      by apply not_elem_of_list_to_map.
    + intros l Hne. by rewrite Hl, Hl1.
Qed.

(** X14: with a hook that does nothing, merging a distinct project whose job names are new to the target and whose files are either already registered with the same archive path or new and present on disk succeeds, and the target's jobs and files become the unions of both projects'; nothing else changes. *)
Theorem merge_into_union (on_add : hook) (src tgt : loc) (w : world) :
  (forall fs j p n, on_add fs j p n = (p, Ok tt)) ->
  src <> tgt ->
  (forall n, is_Some (_jobs (w_store w src) !! n) -> _jobs (w_store w tgt) !! n = None) ->
  (forall f a, _files (w_store w src) !! f = Some a ->
     isabs f = true /\
     (_files (w_store w tgt) !! f = Some a \/
      (_files (w_store w tgt) !! f = None /\ exists_path (w_fs w) f = true))) ->
  exists w', merge_into on_add src tgt w = (w', Ok tt) /\
    w_store w' tgt
    = Project (name (w_store w tgt))
        (_jobs (w_store w src) ∪ _jobs (w_store w tgt))
        (_files (w_store w src) ∪ _files (w_store w tgt)) /\
    (forall l, l <> tgt -> w_store w' l = w_store w l) /\
    w_fs w' = w_fs w /\ w_rc w' = w_rc w /\ w_trace w' = w_trace w.
Proof.
  intros Hid Hne Hjobs Hfiles.
  unfold merge_into. rewrite bind_unfold. cbn [get_project].
  destruct (merge_jobs_loop on_add tgt Hid (map_to_list (_jobs (w_store w src)))
              (NoDup_fst_map_to_list _) w) as (w1 & Hrun1 & Ht1 & Hl1 & Hfs1 & Hrc1 & Htr1).
  { intros n j Hin. apply Hjobs. exists j. by apply elem_of_map_to_list. }
  rewrite bind_unfold, Hrun1, bind_unfold. cbn [get_project].
  rewrite (Hl1 src Hne).
  destruct (merge_files_loop tgt (map_to_list (_files (w_store w src)))
              (NoDup_fst_map_to_list _) w1) as (w' & Hrun & Ht & Hl & Hfs & Hrc & Htr).
  { intros f a Hin. apply elem_of_map_to_list in Hin.
    destruct (Hfiles f a Hin) as [Habs Hc]. split; [done|].
    rewrite Ht1, Hfs1. by destruct (w_store w tgt). }
  exists w'. split; [exact Hrun|].
  split; [|split; [|split; [congruence|split; congruence]]].
  - rewrite Ht, Ht1, !list_to_map_to_list. by destruct (w_store w tgt).
  - intros l Hl'. by rewrite Hl, Hl1.
Qed.

(** X15: [main] with [--quiet] on the [view] command prints the options of the named job when it exists, and otherwise logs the missing job error and exits with status 1, with no other change; without [--quiet] it raises [NameError] and changes nothing. *)
Theorem main_view (on_build : hook) (archive_size : list (string * zsrc) -> string)
    (server : request -> reply) (gu tp tmp : string)
    (self : loc) (quiet : bool) (job_name : string) (w : world) :
  main on_build archive_size server gu tp tmp self quiet (CmdView job_name) w
  = if quiet then
      match _jobs (w_store w self) !! job_name with
      | Some j =>
          (World (w_fs w) (w_store w) (w_rc w) (w_trace w ++ [Printed (job_options j)]),
           Ok tt)
      | None =>
          (World (w_fs w) (w_store w) (w_rc w)
             (w_trace w ++ [LogError ("missing job " +:+ repr job_name)]),
           Err (SystemExit 1))
      end
    else (w, Err (NameError "global name 'get_formatted_stream_handler' is not defined")).
Proof.
  destruct quiet; [|reflexivity].
  unfold main, catch, main_body. unfold_m. cbn.
  by destruct (_jobs (w_store w self) !! job_name).
Qed.

(** X16: when the [run] or [upload] request itself raises, a connection error becomes the domain error 'unable to connect to azkaban server', a missing schema becomes 'invalid azkaban server url', any other I/O error of the upload becomes the missing-archive error, and other exceptions propagate unchanged. *)
Theorem request_errors (server : request -> reply) (gu tp : string) (self : loc)
    (url user password alias : option string) (w w1 : world) (u sid : string) (e : exn) :
  _get_credentials server gu tp url user password alias w = (w1, Ok (u, sid)) ->
  (forall flow,
   let rq := Request (u +:+ "/executor")
               [("ajax", "executeFlow"); ("session.id", sid);
                ("project", name (w_store w self)); ("flow", flow)] None in
   server rq = RRaise e ->
   run server gu tp self flow url user password alias w
   = (World (w_fs w1) (w_store w1) (w_rc w1) (w_trace w1 ++ [Posted rq]),
      Err (match e with
           | ConnectionError => AzkabanError "unable to connect to azkaban server"
           | MissingSchema => AzkabanError "invalid azkaban server url"
           | e => e
           end))) /\
  (forall archive,
   let rq := Request (u +:+ "/manager")
               [("ajax", "upload"); ("session.id", sid);
                ("project", name (w_store w self))] (Some archive) in
   exists_path (w_fs w) archive = true ->
   server rq = RRaise e ->
   upload server gu tp self archive url user password alias w
   = (World (w_fs w1) (w_store w1) (w_rc w1) (w_trace w1 ++ [Posted rq]),
      Err (match e with
           | ConnectionError => AzkabanError "unable to connect to azkaban server"
           | MissingSchema => AzkabanError "invalid azkaban server url"
           | RequestError | IOError _ => AzkabanError ("unable to find archive at " +:+ repr archive)
           | e => e
           end))).
Proof.
  intros Hc. destruct (get_credentials_io _ _ _ _ _ _ _ _ _ _ Hc) as [Hfs Hst].
  split.
  - intros flow rq Hs. unfold run. rewrite bind_unfold, Hc.
    unfold post, req_json, getitem, wrap_request_error. unfold_m. cbn.
    rewrite Hst. subst rq. rewrite Hs. by destruct e.
  - intros archive rq Hex Hs. unfold upload. rewrite bind_unfold, Hc.
    unfold post, req_json, getitem, wrap_request_error. unfold_m. cbn.
    rewrite Hfs, Hex, Hst. cbn. subst rq. rewrite Hs. destruct e; cbn; by rewrite ?Hfs, ?Hst.
Qed.

Lemma rstrip_slash_spec_witness : rstrip_slash "http://h" = "http://h".
Proof.
  apply (proj2 (proj2 (proj2 (rstrip_slash_spec "http://h")))).
  intros t Ht. apply (f_equal rev_string) in Ht.
  rewrite rev_string_app in Ht. cbn [rev_string] in Ht.
  rewrite str_nil_app in Ht. vm_compute in Ht. discriminate.
Defined.

Lemma get_credentials_url_witness :
  ("http://h" = rstrip_slash (if truthy (Some "prod") then cfg_get (w_rc w_rc0) "prod" "url"
                              else "") /\
   (forall t, "http://h" <> t +:+ "/")) /\
  ("http://h" = rstrip_slash (if truthy None then "" else "http://h//") /\
   (forall t, "http://h" <> t +:+ "/")).
Proof.
  split.
  - apply (get_credentials_url srv0 "u" "pw" None None (Some "pw") (Some "prod") w_rc0
             (fst (_get_credentials srv0 "u" "pw" None None (Some "pw") (Some "prod") w_rc0))
             "http://h" "s1").
    vm_compute. reflexivity.
  - apply (get_credentials_url srv0 "u" "pw" (Some "http://h//") None (Some "pw") None w_a
             (fst (_get_credentials srv0 "u" "pw" (Some "http://h//") None (Some "pw") None w_a))
             "http://h" "s1").
    vm_compute. reflexivity.
Defined.

Lemma no_prompt_with_password_witness :
  preserves (trace_grows (fun ev => is_prompt ev = false))
    (_get_credentials srv0 "u" "pw" None None (Some "pw") (Some "prod")).
Proof.
  exact (proj1 (no_prompt_with_password srv0 "u" "pw" 0 "/a.zip" "f" None None
                  (Some "pw") (Some "prod") eq_refl)).
Defined.



Lemma main_disk_witness :
  w_fs (fst (main hook_noop size0 srv0 "u" "pw" "/tmp/t" 0 true
               (CmdUpload None (Some "http://h") None None) w_src))
  = delete "/tmp/t" (w_fs w_src).
Proof.
  exact (main_disk hook_noop size0 srv0 "u" "pw" "/tmp/t" 0 true
           (CmdUpload None (Some "http://h") None None) w_src _ _ (surjective_pairing _)).
Defined.

Lemma get_credentials_cache_witness :
  exists sec u0,
    w_rc w_rc0 !! "prod" = Some sec /\ sec !! "url" = Some u0 /\ "http://h" = rstrip_slash u0 /\
    w_rc (fst (_get_credentials srv0 "u" "pw" None None None (Some "prod") w_rc0))
    = <["prod" := <["session_id" := "s1"]> sec]> (w_rc w_rc0).
Proof.
  apply (get_credentials_cache srv0 "u" "pw" None None None "prod" w_rc0
           (fst (_get_credentials srv0 "u" "pw" None None None (Some "prod") w_rc0))
           "http://h" "s1").
  - discriminate.
  - vm_compute. reflexivity.
Defined.

Lemma get_credentials_reuse_witness :
  snd (_get_credentials srv0 "u" "pw" None None None (Some "prod")
         (fst (_get_credentials srv0 "u" "pw" None None None (Some "prod") w_rc0)))
  = Ok ("http://h", "s1").
Proof.
  rewrite (get_credentials_reuse srv0 "u" "pw" None None None None None None "prod" w_rc0
             (fst (_get_credentials srv0 "u" "pw" None None None (Some "prod") w_rc0))
             "http://h" "s1" (Some ∅)).
  - reflexivity.
  - discriminate.
  - vm_compute. reflexivity.
  - discriminate.
  - vm_compute. reflexivity.
Defined.

Lemma get_credentials_url_login_witness :
  snd (_get_credentials srv0 "u" "pw" (Some "http://h/") None (Some "pw") None w_a)
  = Ok ("http://h", "s1").
Proof.
  rewrite (proj2 (get_credentials_url_login srv0 "u" "pw" "http://h/" None (Some "pw") None w_a
                    ltac:(discriminate) eq_refl "" {[ "session.id" := "s1" ]} eq_refl)
             eq_refl "s1" eq_refl).
  vm_compute. reflexivity.
Defined.

Lemma upload_missing_archive_witness :
  snd (upload srv0 "u" "pw" 0 "/missing.zip" (Some "http://h") None (Some "pw") None w_a)
  = Err (AzkabanError "unable to find archive at '/missing.zip'").
Proof.
  rewrite (upload_missing_archive srv0 "u" "pw" 0 "/missing.zip" (Some "http://h") None (Some "pw") None
             w_a (fst (_get_credentials srv0 "u" "pw" (Some "http://h") None (Some "pw") None w_a))
             "http://h" "s1").
  - reflexivity.
  - vm_compute. reflexivity.
  - reflexivity.
Defined.


Lemma add_job_twice_witness :
  snd (add_job hook_noop 0 "j" job0 (fst (add_job hook_noop 0 "j" job0 w_a)))
  = Err (AzkabanError "duplicate job name 'j'").
Proof.
  rewrite (add_job_twice hook_noop 0 "j" job0 job0 w_a (fst (add_job hook_noop 0 "j" job0 w_a))).
  - reflexivity.
  - unfold hook_noop. by intros ?????? [= <- _].
  - vm_compute. reflexivity.
Defined.

Lemma merge_into_self_witness :
  (exists n, is_Some (_jobs (w_store w_src 0) !! n) /\
     merge_into hook_noop 0 0 w_src
     = (w_src, Err (AzkabanError ("duplicate job name " +:+ repr n)))) /\
  merge_into hook_noop 0 0 (world0 fs_a (Project "p" ∅ {[ "/a.txt" := None ]}))
  = (world0 fs_a (Project "p" ∅ {[ "/a.txt" := None ]}), Ok tt).
Proof.
  split.
  - apply (proj1 (merge_into_self hook_noop 0 w_src)).
    apply map_non_empty_singleton.
  - apply (proj2 (merge_into_self hook_noop 0 (world0 fs_a (Project "p" ∅ {[ "/a.txt" := None ]})))).
    + reflexivity.
    + intros f a H. cbn in H. apply lookup_singleton_Some in H as [<- _]. reflexivity.
Defined.

Lemma merge_into_union_witness :
  exists w', merge_into hook_noop 0 1 w_src = (w', Ok tt) /\
    w_store w' 1 = Project "other" ({[ "j" := job0 ]} ∪ ∅) ({[ "/a.txt" := None ]} ∪ ∅).
Proof.
  destruct (merge_into_union hook_noop 0 1 w_src) as (w' & H1 & H2 & _).
  - reflexivity.
  - discriminate.
  - intros n _. apply lookup_empty.
  - intros f a H. change (_files (w_store w_src 0)) with ({[ "/a.txt" := None ]} : gmap string (option string)) in H.
    apply lookup_singleton_Some in H as [<- <-]. split; [reflexivity|].
    right. split; [apply lookup_empty|reflexivity].
  - exists w'. split; [exact H1|exact H2].
Defined.

Lemma request_errors_witness :
  snd (run srv_down "u" "pw" 0 "f" (Some "http://h") None (Some "pw") None w_a)
  = Err (AzkabanError "unable to connect to azkaban server").
Proof.
  rewrite (proj1 (request_errors srv_down "u" "pw" 0 (Some "http://h") None (Some "pw") None w_a
                    (fst (_get_credentials srv_down "u" "pw" (Some "http://h") None (Some "pw") None w_a))
                    "http://h" "s1" ConnectionError ltac:(vm_compute; reflexivity))
             "f" eq_refl).
  reflexivity.
Defined.
